(** * ZebraCHOP: the guide-report reformatter [reformat.py]

    A shallow embedding of [fetch_exon_data], [find_exon],
    [calculate_exon_threshold] and
    [read_tsv_files_in_directory_and_write_output], followed by the
    properties of the exon classifier, the threshold and the batch
    processor.

    Conventions of the embedding:
    - Python integers are [Z]; list positions and counters are [nat].
    - A Python [str] is a [string]: one unit per character, the units
      being the characters with code points 0 to 255.
    - A Python [float] is a binary64 value; the only floats the program
      builds are [exon_count / 2.0], so a float is represented by the
      rational it denotes and the conversion [int -> float] carries the
      rounding to a 53-bit significand.
    - Exceptions are values of [Exn]; a computation that touches the
      network, the output file, the console or the progress bar is a
      function [World -> Result A * World]: the world survives an
      exception, since nothing the program did before it is undone.
    - The Ensembl REST service is a parameter: the answer it gives to the
      k-th request of the run, for a gene symbol. *)

From Stdlib Require Import ZArith QArith Qround List String Ascii Bool Arith Lia.
From Stdlib Require Import DecimalString.
Import ListNotations.

Local Open Scope string_scope.
Local Open Scope list_scope.
Local Open Scope nat_scope.

(* ===================================================================== *)
(** ** Exceptions and results *)
(* ===================================================================== *)

Inductive Exn : Type :=
| HTTPError                 (* response.raise_for_status() *)
| KeyError (key : string)   (* exon['start'], exon['end'] *)
| IndexError                (* row[2], row[1] *)
| ValueError                (* tuple unpacking of split(':'), int(position) *)
| OverflowError             (* int too large to convert to float *)
| OSError                   (* os.listdir, open *)
| CsvError                  (* csv.Error, raised by the reader *)
| UnicodeDecodeError.       (* raised by the reader on undecodable bytes *)

Inductive Result (A : Type) : Type :=
| Ok (a : A)
| Raise (e : Exn).

Arguments Ok {A} a.
Arguments Raise {A} e.

(* ===================================================================== *)
(** ** The world the program acts on *)
(* ===================================================================== *)

(** What [print] sends to the console. *)
Inductive Message : Type :=
| SkipNotice (gene_name file_name : string)
    (* "No exons found for gene {}. Skipping file {}." *)
| Completed (directory_path output_file_path : string)
    (* "Processed all .tsv files in {} and wrote the output to {}" *)
| ErrorOccurred (e : Exn).
    (* "An error occurred: {}" *)

Record World : Type := mkWorld {
  requests : list string;   (* gene symbols of the GET requests sent so far *)
  output   : list string;   (* the arguments of output_file.write, in order *)
  console  : list Message;  (* the lines printed so far *)
  total    : nat;           (* tqdm(total=num_files) *)
  progress : nat            (* pbar.update(1) calls so far *)
}.

Definition M (A : Type) : Type := World -> Result A * World.

Definition ret {A : Type} (a : A) : M A := fun w => (Ok a, w).

Definition raise {A : Type} (e : Exn) : M A := fun w => (Raise e, w).

Definition bind {A B : Type} (c : M A) (k : A -> M B) : M B :=
  fun w =>
    match c w with
    | (Ok a, w') => k a w'
    | (Raise e, w') => (Raise e, w')
    end.

Definition lift {A : Type} (r : Result A) : M A := fun w => (r, w).

Declare Scope py_scope.
Delimit Scope py_scope with py.
Notation "x <- c ;; k" := (bind c (fun x => k))
  (at level 100, c at next level, right associativity) : py_scope.
Notation "c ;;; k" := (bind c (fun _ => k))
  (at level 100, right associativity) : py_scope.
Local Open Scope py_scope.

Definition send_request (gene_name : string) : M nat :=
  fun w => (Ok (List.length (requests w)),
            mkWorld (requests w ++ [gene_name]) (output w) (console w) (total w) (progress w)).

Definition write (s : string) : M unit :=
  fun w => (Ok tt, mkWorld (requests w) (output w ++ [s]) (console w) (total w) (progress w)).

Definition print (m : Message) : M unit :=
  fun w => (Ok tt, mkWorld (requests w) (output w) (console w ++ [m]) (total w) (progress w)).

Definition pbar_update : M unit :=
  fun w => (Ok tt, mkWorld (requests w) (output w) (console w) (total w) (S (progress w))).

(* ===================================================================== *)
(** ** The remote annotation service and [fetch_exon_data] *)
(* ===================================================================== *)

(** The JSON body of a lookup: only the keys the program reads.  A key
    that may be absent is an [option]. *)
Record ExonJson : Type := mkExonJson {
  json_start : option Z;
  json_end   : option Z
}.

Record TranscriptJson : Type := mkTranscriptJson {
  json_Exon : option (list ExonJson)
}.

Record GeneJson : Type := mkGeneJson {
  json_error      : bool;   (* 'error' in data *)
  json_Transcript : option (list TranscriptJson)
}.

Inductive Response : Type :=
| NotOk                    (* response.ok is false *)
| Json (data : GeneJson).

(** The answer to the k-th request of the run (k counts from 0). *)
Definition Service : Type := nat -> string -> Response.

Record Exon : Type := mkExon {
  start : Z;
  end_  : Z
}.

(** [for exon in transcript.get('Exon', []): exons.append(...)] *)
Fixpoint append_exons (l : list ExonJson) : Result (list Exon) :=
  match l with
  | [] => Ok []
  | e :: l' =>
      match json_start e with
      | None => Raise (KeyError "start")
      | Some s =>
          match json_end e with
          | None => Raise (KeyError "end")
          | Some t =>
              match append_exons l' with
              | Ok r => Ok (mkExon s t :: r)
              | Raise x => Raise x
              end
          end
      end
  end.

(** [for transcript in data.get('Transcript', []): ...] *)
Fixpoint flatten_transcripts (ts : list TranscriptJson) : Result (list Exon) :=
  match ts with
  | [] => Ok []
  | t :: ts' =>
      match append_exons (match json_Exon t with Some l => l | None => [] end) with
      | Raise x => Raise x
      | Ok here =>
          match flatten_transcripts ts' with
          | Ok r => Ok (here ++ r)
          | Raise x => Raise x
          end
      end
  end.

Definition fetch_exon_data (service : Service) (gene_name : string)
  : M (option (list Exon)) :=
  k <- send_request gene_name ;;
  match service k gene_name with
  | NotOk => raise HTTPError
  | Json data =>
      if json_error data then ret None
      else
        exons <- lift (flatten_transcripts
                         (match json_Transcript data with
                          | Some ts => ts
                          | None => []
                          end)) ;;
        ret (Some exons)
  end.

(* ===================================================================== *)
(** ** [find_exon] *)
(* ===================================================================== *)

(** [exon['start'] <= coordinate <= exon['end']] *)
Definition contains (exon : Exon) (coordinate : Z) : bool :=
  (start exon <=? coordinate)%Z && (coordinate <=? end_ exon)%Z.

(** [for index, exon in enumerate(exons, start=1): ... return index];
    falling off the loop is [return None]. *)
Fixpoint find_exon_loop (index : nat) (exons : list Exon) (coordinate : Z)
  : option nat :=
  match exons with
  | [] => None
  | exon :: rest =>
      if contains exon coordinate then Some index
      else find_exon_loop (S index) rest coordinate
  end.

Definition find_exon (service : Service)
  (chromosome : string) (coordinate : Z) (gene_name : string)
  : M (option nat) :=
  exons <- fetch_exon_data service gene_name ;;
  match exons with
  | None => ret None          (* [if not exons]: None is falsy, *)
  | Some [] => ret None       (* and so is the empty list *)
  | Some l => ret (find_exon_loop 1 l coordinate)
  end.

(* ===================================================================== *)
(** ** [calculate_exon_threshold] *)
(* ===================================================================== *)

(** The nearest multiple of [2^e] to [a >= 0], a tie going to the even
    quotient: the rounding of an integer that needs more than 53 bits. *)
Definition round_half_even (a e : Z) : Z :=
  let q := (a / 2 ^ e)%Z in
  let r := (a mod 2 ^ e)%Z in
  let half := (2 ^ (e - 1))%Z in
  ((if (r <? half)%Z then q
    else if (half <? r)%Z then q + 1
    else if Z.even q then q else q + 1) * 2 ^ e)%Z.

(** The conversion of the left operand of [exon_count / 2.0]: the
    binary64 value nearest to the integer, or OverflowError. *)
Definition float_of_int (n : Z) : Result Q :=
  let a := Z.abs n in
  let e := (Z.log2 a - 52)%Z in
  let m := if (e <=? 0)%Z then a else round_half_even a e in
  if (2 ^ 1024 <=? m)%Z then Raise OverflowError
  else Ok (inject_Z (Z.sgn n * m)).

(** [x / 2.0]: halving a binary64 integer only lowers its exponent. *)
Definition div_2_0 (x : Q) : Q := (x / 2)%Q.

Definition calculate_exon_threshold (exon_count : Z) : Result Z :=
  match float_of_int exon_count with
  | Raise e => Raise e
  | Ok x =>
      if (exon_count <=? 5)%Z then Ok (Qceiling (div_2_0 x))
      else Ok (Qfloor (div_2_0 x))
  end.

(* ===================================================================== *)
(** ** String operations of the record scan *)
(* ===================================================================== *)

Definition nl : string := String (ascii_of_nat 10) EmptyString.

(** [s.endswith(suffix)] *)
Definition endswith (s suffix : string) : bool :=
  let n := String.length s in
  let m := String.length suffix in
  (m <=? n) && String.eqb (substring (n - m) m s) suffix.

(** [p.rfind('.')] *)
Fixpoint rfind_dot (p : string) : option nat :=
  match p with
  | EmptyString => None
  | String c p' =>
      match rfind_dot p' with
      | Some i => Some (S i)
      | None => if Ascii.eqb c "." then Some 0 else None
      end
  end.

Fixpoint all_dots (p : string) : bool :=
  match p with
  | EmptyString => true
  | String c p' => Ascii.eqb c "." && all_dots p'
  end.

(** [os.path.splitext(file_name)[0]] for a directory entry (a name with
    no path separator): the name up to its last dot, unless only dots
    come before that dot. *)
Definition splitext_root (p : string) : string :=
  match rfind_dot p with
  | Some i => if all_dots (substring 0 i p) then p else substring 0 i p
  | None => p
  end.

(** ['=' * n] *)
Fixpoint repeat_string (s : string) (n : nat) : string :=
  match n with
  | O => EmptyString
  | S n' => (s ++ repeat_string s n')%string
  end.

(** [s.split(sep)] for a one-character separator: never empty. *)
Fixpoint split (sep : ascii) (s : string) : list string :=
  match s with
  | EmptyString => [EmptyString]
  | String c s' =>
      if Ascii.eqb c sep then EmptyString :: split sep s'
      else
        match split sep s' with
        | h :: t => String c h :: t
        | [] => [String c EmptyString]
        end
  end.

(** [s.replace('chr', '')] *)
Fixpoint replace_chr (s : string) : string :=
  match s with
  | String "c" (String "h" (String "r" rest)) => replace_chr rest
  | String c s' => String c (replace_chr s')
  | EmptyString => EmptyString
  end.

(** The whitespace [int] strips: tab, LF, VT, FF, CR, space, and of the
    characters above 127 the two that are Unicode spaces, NEL (133) and
    the no-break space (160). *)
Definition is_space (c : ascii) : bool :=
  let n := nat_of_ascii c in
  ((9 <=? n) && (n <=? 13)) || (n =? 32) || (n =? 133) || (n =? 160).

Fixpoint lstrip (s : string) : string :=
  match s with
  | String c s' => if is_space c then lstrip s' else s
  | EmptyString => EmptyString
  end.

Fixpoint rstrip (s : string) : string :=
  match s with
  | EmptyString => EmptyString
  | String c s' =>
      match rstrip s' with
      | EmptyString => if is_space c then EmptyString else String c EmptyString
      | r => String c r
      end
  end.

Definition digit_value (c : ascii) : option Z :=
  let n := nat_of_ascii c in
  if (48 <=? n) && (n <=? 57) then Some (Z.of_nat (n - 48)) else None.

(** Decimal digits, single underscores allowed between two digits. *)
Fixpoint parse_digits (acc : Z) (prev_digit : bool) (s : string) : option Z :=
  match s with
  | EmptyString => if prev_digit then Some acc else None
  | String c s' =>
      match digit_value c with
      | Some d => parse_digits (10 * acc + d) true s'
      | None =>
          if Ascii.eqb c "_" && prev_digit then parse_digits acc false s'
          else None
      end
  end.

(** The number of digit characters of a string. *)
Fixpoint count_digits (s : string) : nat :=
  match s with
  | EmptyString => 0
  | String c s' =>
      match digit_value c with
      | Some _ => S (count_digits s')
      | None => count_digits s'
      end
  end.

(** [sys.int_info.default_max_str_digits]: a decimal string with more
    digit characters is refused with ValueError. *)
Definition int_max_str_digits : nat := 4300.

(** [int(s)]: surrounding whitespace, an optional sign, decimal digits
    with single underscores between them, at most 4300 digits. *)
Definition int_of_str (s : string) : Result Z :=
  let body := rstrip (lstrip s) in
  let parsed :=
    match body with
    | String c r =>
        if Ascii.eqb c "+" then parse_digits 0 false r
        else if Ascii.eqb c "-" then option_map Z.opp (parse_digits 0 false r)
        else parse_digits 0 false body
    | EmptyString => None
    end in
  match parsed with
  | Some z =>
      if count_digits s <=? int_max_str_digits then Ok z else Raise ValueError
  | None => Raise ValueError
  end.

(** ["{}".format(n)] for a list position. *)
Definition str_of_nat (n : nat) : string :=
  NilEmpty.string_of_uint (Nat.to_uint n).

(** [row[i]] for [i >= 0] *)
Definition index (row : list string) (i : nat) : Result string :=
  match nth_error row i with
  | Some s => Ok s
  | None => Raise IndexError
  end.

(** [s[:-3] if len(s) > 3 else s] *)
Definition truncate_label (s : string) : string :=
  if 3 <? String.length s then substring 0 (String.length s - 3) s else s.

(** ["[{0}]  Efficiency Score: [{1}]  {2}\n"] with
    [{2} = "Exon number: {}".format(exon_number)] *)
Definition format_line (second_cell score : string) (exon_number : nat) : string :=
  ("[" ++ second_cell ++ "]  Efficiency Score: [" ++ score ++ "]  "
   ++ "Exon number: " ++ str_of_nat exon_number ++ nl)%string.

(* ===================================================================== *)
(** ** [read_tsv_files_in_directory_and_write_output] *)
(* ===================================================================== *)

(** A row as [csv.reader(tsv_file, delimiter='\t')] yields it: the list
    of its fields; a blank line is the empty list. *)
Definition Row : Type := list string.

(** A directory entry: its name and, when [open(tsv_file_path, 'r')]
    succeeds, the rows the reader yields, followed by the way the
    reader ends when it is asked for one more row: the end of the file
    ([None]) or an exception (a line it cannot decode or parse). *)
Record DirEntry : Type := mkDirEntry {
  file_name    : string;
  tsv_rows     : option (list Row);
  reader_error : option Exn
}.

(** The directory is listed twice, at line 74 to count the report files
    and at line 81 for the loop, and the output file is opened in
    between; nothing makes the second listing equal to the first (the
    output file itself may lie in the directory), so each call has its
    own answer.  [None]: the call raises. *)
Record FileSystem : Type := mkFileSystem {
  listdir         : option (list DirEntry);  (* os.listdir, line 74 *)
  output_writable : bool;                    (* open(output_file_path, 'w') *)
  listdir_again   : option (list DirEntry)   (* os.listdir, line 81 *)
}.

Section Processor.

Variable service : Service.

(** Lines 116-133: the body of [if row:] for one non-empty row; the
    value is the new [count]. *)
Definition process_row (gene_name : string) (exon_threshold : Z)
  (row : Row) (count : nat) : M nat :=
  genomic_coordinates <- lift (index row 2) ;;
  match split ":" genomic_coordinates with
  | [chromosome; position] =>
      let chromosome := replace_chr chromosome in
      position <- lift (int_of_str position) ;;
      row_1 <- lift (index row 1) ;;
      let second_cell := truncate_label row_1 in
      exon_number <- find_exon service chromosome position gene_name ;;
      match exon_number with
      | Some n =>
          if (Z.of_nat n <=? exon_threshold)%Z then
            write (format_line second_cell (last row EmptyString) n) ;;;
            ret (S count)
          else ret count
      | None => ret count
      end
  | _ => raise ValueError
  end.

(** Lines 112-133: [for row in tsv_reader], from a given [count]; the
    value is the final [count].  Each turn of the loop first asks the
    reader for the next row, which is a row, the end of the rows, or the
    exception [ending]; the test [count >= 5] comes after that. *)
Fixpoint scan_rows (gene_name : string) (exon_threshold : Z)
  (rows : list Row) (ending : option Exn) (count : nat) : M nat :=
  match rows with
  | [] =>
      match ending with
      | None => ret count
      | Some e => raise e
      end
  | row :: rest =>
      if 5 <=? count then ret count
      else
        match row with
        | [] => scan_rows gene_name exon_threshold rest ending count
        | _ :: _ =>
            count' <- process_row gene_name exon_threshold row count ;;
            scan_rows gene_name exon_threshold rest ending count'
        end
  end.

(** Lines 82-135: the body of [for file_name in os.listdir(...)]. *)
Definition process_file (entry : DirEntry) : M unit :=
  if endswith (file_name entry) ".tsv" then
    let tsv_file_name := splitext_root (file_name entry) in
    let gene_name := tsv_file_name in
    exons <- fetch_exon_data service gene_name ;;
    match exons with
    | Some (exon :: others) =>
        exon_threshold <-
          lift (calculate_exon_threshold
                  (Z.of_nat (List.length (exon :: others)))) ;;
        match tsv_rows entry with
        | None => raise OSError
        | Some rows =>
            (* next(tsv_reader, None): the first row is dropped; only a
               reader that fails on it raises *)
            match rows, reader_error entry with
            | [], Some e => raise e
            | _, _ =>
                write (tsv_file_name ++ nl)%string ;;;
                write (repeat_string "=" (String.length tsv_file_name) ++ nl)%string ;;;
                _ <- scan_rows gene_name exon_threshold (tl rows)
                       (reader_error entry) 0 ;;
                write nl ;;;
                pbar_update
            end
        end
    | _ =>
        print (SkipNotice gene_name (file_name entry)) ;;;
        pbar_update
    end
  else ret tt.

Fixpoint process_files (entries : list DirEntry) : M unit :=
  match entries with
  | [] => ret tt
  | entry :: rest => process_file entry ;;; process_files rest
  end.

Definition os_listdir (listing : option (list DirEntry)) : M (list DirEntry) :=
  match listing with
  | Some entries => ret entries
  | None => raise OSError
  end.

(** [open(output_file_path, 'w')] truncates the file. *)
Definition open_output (fs : FileSystem) : M unit :=
  fun w =>
    if output_writable fs
    then (Ok tt, mkWorld (requests w) [] (console w) (total w) (progress w))
    else (Raise OSError, w).

(** [tqdm(total=num_files, ...)] *)
Definition tqdm (num_files : nat) : M unit :=
  fun w => (Ok tt, mkWorld (requests w) (output w) (console w) num_files 0).

(** The [try] block, lines 73-136. *)
Definition try_block (fs : FileSystem)
  (directory_path output_file_path : string) : M unit :=
  names <- os_listdir (listdir fs) ;;
  let num_files :=
    List.length (filter (fun entry => endswith (file_name entry) ".tsv") names) in
  open_output fs ;;;
  tqdm num_files ;;;
  entries <- os_listdir (listdir_again fs) ;;
  process_files entries ;;;
  print (Completed directory_path output_file_path).

(** The whole function: [except Exception as e] prints one line. *)
Definition read_tsv_files_in_directory_and_write_output
  (fs : FileSystem) (directory_path output_file_path : string)
  (w : World) : World :=
  match try_block fs directory_path output_file_path w with
  | (Ok _, w') => w'
  | (Raise e, w') => snd (print (ErrorOccurred e) w')
  end.

End Processor.

(* ===================================================================== *)
(** ** Specification-side definitions *)
(* ===================================================================== *)

(** The threshold in the words of the specification: the ceiling of half
    the count up to 5, the floor above, on exact rationals. *)
Definition threshold_spec (exon_count : Z) : Z :=
  if (exon_count <=? 5)%Z then Qceiling (inject_Z exon_count / 2)
  else Qfloor (inject_Z exon_count / 2).

(** [start <= coordinate <= end] *)
Definition inside (exon : Exon) (coordinate : Z) : Prop :=
  (start exon <= coordinate <= end_ exon)%Z.

(** [r] is the 1-based position of the first interval of [exons] that
    contains [coordinate], or [None] when no interval does. *)
Definition first_match (exons : list Exon) (coordinate : Z) (r : option nat)
  : Prop :=
  match r with
  | Some i =>
      exists before exon after,
        exons = before ++ exon :: after /\
        i = S (List.length before) /\
        inside exon coordinate /\
        Forall (fun e => ~ inside e coordinate) before
  | None => Forall (fun e => ~ inside e coordinate) exons
  end.

(** What [fetch_exon_data] makes of an answer of the service. *)
Definition decode (answer : Response) : Result (option (list Exon)) :=
  match answer with
  | NotOk => Raise HTTPError
  | Json data =>
      if json_error data then Ok None
      else
        match flatten_transcripts
                (match json_Transcript data with Some ts => ts | None => [] end)
        with
        | Ok exons => Ok (Some exons)
        | Raise e => Raise e
        end
  end.

(** The world after one more request for [gene_name]. *)
Definition sent (gene_name : string) (w : World) : World :=
  mkWorld (requests w ++ [gene_name]) (output w) (console w) (total w) (progress w).

(** The world after one more [write]. *)
Definition wrote (s : string) (w : World) : World :=
  mkWorld (requests w) (output w ++ [s]) (console w) (total w) (progress w).

(** The world after one more [print]. *)
Definition printed (m : Message) (w : World) : World :=
  mkWorld (requests w) (output w) (console w ++ [m]) (total w) (progress w).

(** The world after one more [pbar.update(1)]. *)
Definition advanced (w : World) : World :=
  mkWorld (requests w) (output w) (console w) (total w) (S (progress w)).

(** The world once the header and its underline are written. *)
Definition block_start (tsv_file_name : string) (w : World) : World :=
  wrote (repeat_string "=" (String.length tsv_file_name) ++ nl)%string
    (wrote (tsv_file_name ++ nl)%string w).

(** The world once the blank line closes the block and the bar moves. *)
Definition block_end (w : World) : World := advanced (wrote nl w).

(** The world after a file is skipped for want of exons. *)
Definition skipped (gene_name file_name : string) (w : World) : World :=
  advanced (printed (SkipNotice gene_name file_name) (sent gene_name w)).

(** The world when the loop over the directory starts: the output file
    truncated, the bar at 0 of the number of report files in the first
    listing, [names]. *)
Definition started (names : list DirEntry) (w : World) : World :=
  mkWorld (requests w) [] (console w)
    (List.length (filter (fun entry => endswith (file_name entry) ".tsv") names))
    0.

(** A directory that does not change during the run. *)
Definition stable_directory (entries : list DirEntry) : FileSystem :=
  mkFileSystem (Some entries) true (Some entries).

(** Classification of a coordinate against a locator result. *)
Definition classify (fetched : option (list Exon)) (coordinate : Z)
  : option nat :=
  match fetched with
  | Some exons => find_exon_loop 1 exons coordinate
  | None => None
  end.

(** The pure part of [process_row], lines 117-123: the chromosome, the
    display label and the position of a row, or the exception raised
    before the classifier is called. *)
Definition parse_row (row : Row) : Result (string * string * Z) :=
  match index row 2 with
  | Raise e => Raise e
  | Ok genomic_coordinates =>
      match split ":" genomic_coordinates with
      | [chromosome; position] =>
          match int_of_str position with
          | Raise e => Raise e
          | Ok position =>
              match index row 1 with
              | Raise e => Raise e
              | Ok row_1 => Ok (replace_chr chromosome, truncate_label row_1, position)
              end
          end
      | _ => Raise ValueError
      end
  end.

(** Lines 127-132: the line written for a classified row, if any. *)
Definition keep_line (exon_threshold : Z) (row : Row) (second_cell : string)
  (exon_number : option nat) : option string :=
  match exon_number with
  | Some n =>
      if (Z.of_nat n <=? exon_threshold)%Z
      then Some (format_line second_cell (last row EmptyString) n)
      else None
  | None => None
  end.

Fixpoint has_colon (s : string) : bool :=
  match s with
  | EmptyString => false
  | String c s' => Ascii.eqb c ":" || has_colon s'
  end.

Fixpoint all_space (s : string) : bool :=
  match s with
  | EmptyString => true
  | String c s' => is_space c && all_space s'
  end.

Definition is_digit (c : ascii) : bool :=
  let n := nat_of_ascii c in (48 <=? n) && (n <=? 57).

(** One or more decimal digits, with single underscores allowed between
    two digits. *)
Inductive digit_part : string -> Prop :=
| digit_last (c : ascii) :
    is_digit c = true -> digit_part (String c EmptyString)
| digit_next (c : ascii) (s : string) :
    is_digit c = true -> digit_part s -> digit_part (String c s)
| digit_underscore (c : ascii) (s : string) :
    is_digit c = true -> digit_part s -> digit_part (String c (String "_" s)).

(** The decimal integer literals: whitespace, an optional sign, a digit
    part, whitespace. *)
Definition int_literal (s : string) : Prop :=
  exists left sign body right : string,
    s = (left ++ sign ++ body ++ right)%string /\
    all_space left = true /\
    all_space right = true /\
    (sign = EmptyString \/ sign = "+" \/ sign = "-") /\
    digit_part body.

(** A numeric position: an integer literal of at most 4300 digits. *)
Definition numeric (s : string) : Prop :=
  int_literal s /\ count_digits s <= 4300.

(** A coordinate field without the [chr:pos] shape (no colon), or of
    that shape with a position that is not numeric. *)
Definition malformed (genomic_coordinates : string) : Prop :=
  has_colon genomic_coordinates = false \/
  exists chromosome position : string,
    genomic_coordinates = (chromosome ++ ":" ++ position)%string /\
    has_colon chromosome = false /\
    has_colon position = false /\
    ~ numeric position.

(** [line] is an output line built from [row]: its truncated second
    field, its last field and some exon number. *)
Definition line_from (row : Row) (line : string) : Prop :=
  exists (row_1 : string) (n : nat),
    nth_error row 1 = Some row_1 /\
    line = format_line (truncate_label row_1) (last row EmptyString) n.

(** [l1] is [l2] with some elements left out, the order kept. *)
Inductive Subseq {A : Type} : list A -> list A -> Prop :=
| Subseq_nil : Subseq [] []
| Subseq_skip (x : A) (l1 l2 : list A) : Subseq l1 l2 -> Subseq l1 (x :: l2)
| Subseq_take (x : A) (l1 l2 : list A) : Subseq l1 l2 -> Subseq (x :: l1) (x :: l2).

(** What the scan does with a row when every request of the scan gets
    the same [answer]: skip it or drop it ([Ok None]), keep it with a
    line, or raise. *)
Definition row_verdict (answer : Result (option (list Exon)))
  (exon_threshold : Z) (row : Row) : Result (option string) :=
  match row with
  | [] => Ok None
  | _ :: _ =>
      match parse_row row with
      | Raise e => Raise e
      | Ok (_, second_cell, position) =>
          match answer with
          | Raise e => Raise e
          | Ok fetched =>
              Ok (keep_line exon_threshold row second_cell (classify fetched position))
          end
      end
  end.

(** The lines of the qualifying rows, in row order. *)
Definition qualifying_lines (answer : Result (option (list Exon)))
  (exon_threshold : Z) (rows : list Row) : list string :=
  flat_map (fun row =>
              match row_verdict answer exon_threshold row with
              | Ok (Some line) => [line]
              | _ => []
              end) rows.

Definition well_formed (answer : Result (option (list Exon)))
  (exon_threshold : Z) (row : Row) : Prop :=
  exists verdict, row_verdict answer exon_threshold row = Ok verdict.

(** From the [k0]-th request on, the service answers [answer] for the
    gene. *)
Definition stationary (service : Service) (gene_name : string) (k0 : nat)
  (answer : Result (option (list Exon))) : Prop :=
  forall k : nat, k0 <= k -> decode (service k gene_name) = answer.

(** [transcript.get('Exon', [])] and [data.get('Transcript', [])] *)
Definition json_exons (t : TranscriptJson) : list ExonJson :=
  match json_Exon t with Some l => l | None => [] end.

Definition json_transcripts (data : GeneJson) : list TranscriptJson :=
  match json_Transcript data with Some ts => ts | None => [] end.

(** The exon objects of a body in the order the two loops visit them. *)
Definition json_flat (data : GeneJson) : list ExonJson :=
  List.concat (map json_exons (json_transcripts data)).

(** The JSON exon object [j] has both keys, with the bounds of [e]. *)
Definition carries (j : ExonJson) (e : Exon) : Prop :=
  json_start j = Some (start e) /\ json_end j = Some (end_ e).

Definition complete (j : ExonJson) : Prop := exists e : Exon, carries j e.

(** A coordinate field of the expected shape: text without colon, one
    colon, and a numeric position. *)
Definition well_shaped (genomic_coordinates : string) : Prop :=
  exists chromosome position : string,
    genomic_coordinates = (chromosome ++ ":" ++ position)%string /\
    has_colon chromosome = false /\
    has_colon position = false /\
    numeric position.

(** An output line that reports an exon number from 1 to the threshold. *)
Definition numbered (exon_threshold : Z) (line : string) : Prop :=
  exists (label score : string) (n : nat),
    line = format_line label score n /\
    1 <= n /\
    (Z.of_nat n <= exon_threshold)%Z.

Definition is_tsv (entry : DirEntry) : bool := endswith (file_name entry) ".tsv".

(** The gene a report file is about: its name without the extension. *)
Definition gene_of (entry : DirEntry) : string := splitext_root (file_name entry).

Definition is_skip_notice (m : Message) : Prop :=
  match m with
  | SkipNotice _ _ => True
  | _ => False
  end.

(** The rows of a report file after its header row; none when the
    file cannot be opened. *)
Definition data_rows (entry : DirEntry) : list Row :=
  match tsv_rows entry with
  | Some rows => tl rows
  | None => []
  end.

(** The last line a run prints. *)
Definition is_final (directory_path output_file_path : string) (m : Message)
  : Prop :=
  m = Completed directory_path output_file_path \/
  exists e : Exn, m = ErrorOccurred e.

(** The same world with another content of the output file. *)
Definition with_output (previous : list string) (w : World) : World :=
  mkWorld (requests w) previous (console w) (total w) (progress w).

(* ===================================================================== *)
(** ** Fixtures *)
(* ===================================================================== *)

Definition gene_json (transcripts : list (list (Z * Z))) : Response :=
  Json (mkGeneJson false
          (Some (map (fun t =>
                        mkTranscriptJson
                          (Some (map (fun se => mkExonJson (Some (fst se)) (Some (snd se))) t)))
                     transcripts))).

Definition unknown_symbol : Response := Json (mkGeneJson true None).

Definition w0 : World := mkWorld [] [] [] 0 0.

(** geneA has the single exon 1..100; every other symbol is unknown. *)
Definition service_AB : Service :=
  fun _ gene =>
    if String.eqb gene "geneA" then gene_json [[(1, 100)%Z]] else unknown_symbol.

(** Overlapping exons, in two transcripts. *)
Definition service_overlap : Service :=
  fun _ _ => gene_json [[(10, 20)%Z; (25, 30)%Z]; [(15, 18)%Z]].

(** A service whose annotation changes after the first request. *)
Definition service_shifting : Service :=
  fun k _ =>
    match k with
    | O => gene_json [[(1, 100)%Z]]
    | S _ => gene_json [[(200, 300)%Z]]
    end.

(** Every symbol has the exons 1..100 and 150..200: threshold 1. *)
Definition service_two_exons : Service :=
  fun _ _ => gene_json [[(1, 100)%Z; (150, 200)%Z]].

Definition header_row : Row := ["guide"; "sequence"; "coordinates"; "score"].

Definition guide (label position score : string) : Row :=
  ["g"; label; ("chr5:" ++ position)%string; score].

(** Six qualifying rows, a blank line among them. *)
Definition six_rows : list Row :=
  [ guide "AAAACCC" "10" "0.1"; guide "CCCCGGG" "20" "0.2"; [];
    guide "GGGGTTT" "30" "0.3"; guide "TTTTAAA" "40" "0.4";
    guide "ACACGGG" "50" "0.5"; guide "GTGTCCC" "60" "0.6" ].

(** Five qualifying rows, one of them beyond the threshold in between. *)
Definition five_kept : list Row :=
  [ guide "AAAACCC" "10" "0.1"; guide "CCCCGGG" "20" "0.2";
    guide "GGGGTTT" "160" "0.3"; guide "TTTTAAA" "40" "0.4";
    guide "ACACGGG" "50" "0.5"; guide "GTGTCCC" "60" "0.6" ].

(** Rows no scan survives: no colon, a non-numeric position, one field. *)
Definition broken_rows : list Row :=
  [ ["g"; "AAAACCC"; "chr5-10"; "0.1"]; guide "AAAACCC" "ten" "0.1"; ["g"] ].

Definition dir_three : list DirEntry :=
  [ mkDirEntry "geneA.tsv" (Some [header_row; guide "AAAACCC" "10" "0.1"]) None;
    mkDirEntry "geneC.tsv"
      (Some [header_row; guide "CCCCGGG" "20" "0.2";
           ["g"; "GGGGTTT"; "chr5-30"; "0.3"];
           guide "TTTTAAA" "40" "0.4"]) None;
    mkDirEntry "geneD.tsv" (Some [header_row; guide "ACACGGG" "50" "0.5"]) None ].

Definition fs_three : FileSystem := stable_directory dir_three.

Definition dir_ten : list DirEntry :=
  [ mkDirEntry "geneA.tsv" (Some [header_row; guide "AAAACCC" "10" "0.1"]) None;
    mkDirEntry "geneC.tsv"
      (Some [header_row; guide "CCCCGGG" "20" "0.2";
           ["g"; "GGGGTTT"; "chr5:ten"; "0.3"];
           guide "TTTTAAA" "40" "0.4"]) None;
    mkDirEntry "geneD.tsv" (Some [header_row; guide "ACACGGG" "50" "0.5"]) None ].

Definition fs_ten : FileSystem := stable_directory dir_ten.

Definition dir_short : list DirEntry :=
  [ mkDirEntry "geneA.tsv" (Some [header_row; guide "AAAACCC" "10" "0.1"]) None;
    mkDirEntry "geneC.tsv"
      (Some [header_row; []; guide "CCCCGGG" "20" "0.2";
           ["g"; "GGGGTTT"];
           guide "TTTTAAA" "40" "0.4"]) None;
    mkDirEntry "geneD.tsv" (Some [header_row; guide "ACACGGG" "50" "0.5"]) None ].

Definition fs_short : FileSystem := stable_directory dir_short.

(** geneA.tsv holds five rows that are kept, then a line the reader
    cannot deliver. *)
Definition dir_reader_fails : list DirEntry :=
  [ mkDirEntry "geneA.tsv" (Some (header_row :: five_kept)) (Some CsvError);
    mkDirEntry "geneD.tsv" (Some [header_row; guide "ACACGGG" "50" "0.5"]) None ].

Definition fs_reader_fails : FileSystem := stable_directory dir_reader_fails.

Definition dir_AB : list DirEntry :=
  [ mkDirEntry "geneB.tsv" (Some [header_row; guide "AAAACCC" "10" "0.1"]) None;
    mkDirEntry "notes.txt" None None;
    mkDirEntry "geneA.tsv" (Some [header_row; guide "AAAACCC" "10" "0.1"]) None ].

Definition fs_AB : FileSystem := stable_directory dir_AB.

(** The output file is out.tsv inside the directory: it is not there at
    the first listing and is there at the second. *)
Definition fs_output_inside : FileSystem :=
  mkFileSystem
    (Some [mkDirEntry "geneA.tsv" (Some [header_row; guide "AAAACCC" "10" "0.1"]) None])
    true
    (Some [mkDirEntry "geneA.tsv" (Some [header_row; guide "AAAACCC" "10" "0.1"]) None;
           mkDirEntry "out.tsv" (Some []) None]).

(** The world after the scan of [five_kept] in the block of geneA. *)
Definition w_five_kept : World :=
  mkWorld ["geneA"; "geneA"; "geneA"; "geneA"; "geneA"; "geneA"; "geneA"]
    [("geneA" ++ nl)%string; ("=====" ++ nl)%string;
     format_line "AAAA" "0.1" 1; format_line "CCCC" "0.2" 1;
     format_line "TTTT" "0.4" 1; format_line "ACAC" "0.5" 1;
     format_line "GTGT" "0.6" 1]
    [] 0 0.

(** The world once geneA.tsv of [fs_three] or [fs_short] is processed. *)
Definition w_geneA_done : World :=
  mkWorld ["geneA"; "geneA"]
    [("geneA" ++ nl)%string; ("=====" ++ nl)%string; format_line "AAAA" "0.1" 1; nl]
    [] 3 1.

(** The world when the scan of geneC.tsv has kept its first data row. *)
Definition w_geneC_one_kept : World :=
  mkWorld ["geneA"; "geneA"; "geneC"; "geneC"]
    [("geneA" ++ nl)%string; ("=====" ++ nl)%string; format_line "AAAA" "0.1" 1; nl;
     ("geneC" ++ nl)%string; ("=====" ++ nl)%string; format_line "CCCC" "0.2" 1]
    [] 3 1.

(* ===================================================================== *)
(** ** The threshold *)
(* ===================================================================== *)

Lemma Qfloor_half (n : Z) : Qfloor (div_2_0 (inject_Z n)) = (n / 2)%Z.
Proof.
  unfold div_2_0, Qdiv, Qmult, Qinv, inject_Z, Qfloor. simpl.
  rewrite Z.mul_1_r. reflexivity.
Qed.

Lemma Qceiling_half (n : Z) : Qceiling (div_2_0 (inject_Z n)) = ((n + 1) / 2)%Z.
Proof.
  unfold Qceiling, div_2_0, Qdiv, Qmult, Qinv, Qopp, inject_Z, Qfloor. simpl.
  rewrite Z.mul_1_r.
  Z.div_mod_to_equations. lia.
Qed.

Lemma threshold_spec_int (n : Z) :
  threshold_spec n = if (n <=? 5)%Z then ((n + 1) / 2)%Z else (n / 2)%Z.
Proof.
  unfold threshold_spec.
  destruct (n <=? 5)%Z.
  - apply (Qceiling_half n).
  - apply (Qfloor_half n).
Qed.

Lemma log2_small (n : Z) : (0 <= n < 2 ^ 53)%Z -> (Z.log2 n - 52 <= 0)%Z.
Proof.
  intros [H0 H1].
  destruct (Z.eq_dec n 0) as [-> | Hn].
  - simpl. lia.
  - assert (Z.log2 n < 53)%Z by (apply Z.log2_lt_pow2; lia).
    lia.
Qed.

Lemma float_of_int_exact (n : Z) :
  (0 <= n <= 2 ^ 53)%Z -> float_of_int n = Ok (inject_Z n).
Proof.
  intros [H0 H1].
  destruct (Z.eq_dec n (2 ^ 53)) as [-> | Hn].
  - vm_compute. reflexivity.
  - unfold float_of_int.
    rewrite (Z.abs_eq n H0).
    pose proof (log2_small n ltac:(lia)) as He.
    apply Z.leb_le in He. rewrite He.
    assert (Hbig : (2 ^ 1024 <=? n)%Z = false).
    { apply Z.leb_gt.
      apply Z.lt_trans with (2 ^ 53)%Z; [lia | reflexivity]. }
    rewrite Hbig.
    destruct (Z.eq_dec n 0) as [-> | Hpos]; [reflexivity |].
    rewrite Z.sgn_pos by lia.
    rewrite Z.mul_1_l. reflexivity.
Qed.

(** C1 (as amended).  For every exon count from 0 up to 2^53, the count
    being then exactly representable as a binary64 float,
    [calculate_exon_threshold] returns the ceiling of half the count when
    the count is at most 5 and the floor of half the count when it is
    above 5; in integer terms, [(n + 1) / 2] and [n / 2]. *)
Theorem calculate_exon_threshold_spec (exon_count : Z) :
  (0 <= exon_count <= 2 ^ 53)%Z ->
  calculate_exon_threshold exon_count = Ok (threshold_spec exon_count) /\
  threshold_spec exon_count =
    (if (exon_count <=? 5)%Z then (exon_count + 1) / 2 else exon_count / 2)%Z.
Proof.
  intros H. split; [| apply threshold_spec_int].
  unfold calculate_exon_threshold.
  rewrite (float_of_int_exact exon_count H).
  unfold threshold_spec, div_2_0.
  destruct (exon_count <=? 5)%Z; reflexivity.
Qed.

(** The values the specification lists: threshold(5) = 3,
    threshold(6) = 3, threshold(7) = 3, threshold(1) = 1 and
    threshold(0) = 0, each read off the theorem. *)
Lemma calculate_exon_threshold_spec_witness :
  calculate_exon_threshold 5 = Ok 3%Z /\
  calculate_exon_threshold 6 = Ok 3%Z /\
  calculate_exon_threshold 7 = Ok 3%Z /\
  calculate_exon_threshold 1 = Ok 1%Z /\
  calculate_exon_threshold 0 = Ok 0%Z.
Proof.
  refine (conj _ (conj _ (conj _ (conj _ _)))).
  - exact (proj1 (calculate_exon_threshold_spec 5 ltac:(lia))).
  - exact (proj1 (calculate_exon_threshold_spec 6 ltac:(lia))).
  - exact (proj1 (calculate_exon_threshold_spec 7 ltac:(lia))).
  - exact (proj1 (calculate_exon_threshold_spec 1 ltac:(lia))).
  - exact (proj1 (calculate_exon_threshold_spec 0 ltac:(lia))).
Defined.

(** C1 as stated fails for a count that needs more than 53 bits:
    2^53 + 3 is converted to the float 2^53 + 4 (a tie, resolved to the
    even significand), so the function returns 2^52 + 2, while the floor
    of half the count is 2^52 + 1. *)
Lemma calculate_exon_threshold_beyond_binary64 :
  calculate_exon_threshold 9007199254740995 = Ok 4503599627370498%Z /\
  threshold_spec 9007199254740995 = 4503599627370497%Z /\
  ~ (forall exon_count : Z,
       (0 <= exon_count)%Z ->
       calculate_exon_threshold exon_count = Ok (threshold_spec exon_count)).
Proof.
  assert (Hcode : calculate_exon_threshold 9007199254740995 = Ok 4503599627370498%Z)
    by (vm_compute; reflexivity).
  assert (Hspec : threshold_spec 9007199254740995 = 4503599627370497%Z)
    by (vm_compute; reflexivity).
  repeat split; trivial.
  intros Hall.
  specialize (Hall 9007199254740995%Z ltac:(lia)).
  rewrite Hcode, Hspec in Hall. discriminate Hall.
Qed.

(* ===================================================================== *)
(** ** The classifier *)
(* ===================================================================== *)

Lemma contains_inside (exon : Exon) (coordinate : Z) :
  contains exon coordinate = true <-> inside exon coordinate.
Proof.
  unfold contains, inside.
  rewrite andb_true_iff, !Z.leb_le. tauto.
Qed.

Lemma contains_outside (exon : Exon) (coordinate : Z) :
  contains exon coordinate = false <-> ~ inside exon coordinate.
Proof.
  rewrite <- contains_inside.
  destruct (contains exon coordinate); split; congruence.
Qed.

(** The loop started at [index] answers [index] plus the number of
    intervals skipped. *)
Lemma find_exon_loop_spec (exons : list Exon) (coordinate : Z) :
  forall index : nat,
    match find_exon_loop index exons coordinate with
    | Some i =>
        exists before exon after,
          exons = before ++ exon :: after /\
          i = index + List.length before /\
          inside exon coordinate /\
          Forall (fun e => ~ inside e coordinate) before
    | None => Forall (fun e => ~ inside e coordinate) exons
    end.
Proof.
  induction exons as [| exon rest IH]; intros index; simpl.
  - constructor.
  - destruct (contains exon coordinate) eqn:Hc.
    + exists [], exon, rest. simpl.
      repeat split; [lia | apply contains_inside; assumption
                    | apply contains_inside; assumption | constructor].
    + specialize (IH (S index)).
      destruct (find_exon_loop (S index) rest coordinate) as [i |].
      * destruct IH as (before & hit & after & -> & -> & Hin & Hout).
        exists (exon :: before), hit, after. simpl.
        repeat split; [lia | apply Hin | apply Hin |].
        constructor; [apply contains_outside; assumption | assumption].
      * constructor; [apply contains_outside; assumption | assumption].
Qed.

Lemma find_exon_loop_first_match (exons : list Exon) (coordinate : Z) :
  first_match exons coordinate (find_exon_loop 1 exons coordinate).
Proof.
  pose proof (find_exon_loop_spec exons coordinate 1) as H.
  unfold first_match.
  destruct (find_exon_loop 1 exons coordinate); [| assumption].
  destruct H as (before & exon & after & H1 & H2 & H3 & H4).
  exists before, exon, after. repeat split; try assumption; try apply H3.
Qed.

Lemma fetch_exon_data_run (service : Service) (gene_name : string) (w : World) :
  fetch_exon_data service gene_name w =
  (decode (service (List.length (requests w)) gene_name), sent gene_name w).
Proof.
  unfold fetch_exon_data, bind, send_request, decode, sent. simpl.
  destruct (service (List.length (requests w)) gene_name) as [| data];
    [reflexivity |].
  destruct (json_error data); [reflexivity |].
  unfold lift, ret.
  destruct (flatten_transcripts _); reflexivity.
Qed.

Lemma find_exon_run (service : Service) (chromosome : string) (coordinate : Z)
  (gene_name : string) (w : World) :
  find_exon service chromosome coordinate gene_name w =
  (match decode (service (List.length (requests w)) gene_name) with
   | Ok fetched => Ok (classify fetched coordinate)
   | Raise e => Raise e
   end,
   sent gene_name w).
Proof.
  unfold find_exon, bind. rewrite fetch_exon_data_run.
  destruct (decode _) as [[[| exon others] |] | e]; reflexivity.
Qed.

(** C2.  Whatever exon list the locator hands to [find_exon], the value
    returned is the 1-based position of the first interval, in list
    order, with [start <= coordinate <= end] (later overlapping intervals
    do not matter), and it is [None] when no interval contains the
    coordinate, in particular when the list is empty. *)
Theorem find_exon_first_match (service : Service) (chromosome : string)
  (coordinate : Z) (gene_name : string) (w w' : World) (exons : list Exon) :
  fetch_exon_data service gene_name w = (Ok (Some exons), w') ->
  exists r : option nat,
    find_exon service chromosome coordinate gene_name w = (Ok r, w') /\
    first_match exons coordinate r /\
    (exons = [] -> r = None).
Proof.
  intros Hfetch.
  exists (find_exon_loop 1 exons coordinate).
  split; [| split].
  - unfold find_exon, bind. rewrite Hfetch.
    destruct exons; reflexivity.
  - apply find_exon_loop_first_match.
  - intros ->. reflexivity.
Qed.

(** The example of the specification: in [{10,20},{25,30},{15,18}] the
    coordinate 16 lies in the first and the third interval. *)
Lemma find_exon_first_match_witness :
  exists r : option nat,
    find_exon service_overlap "7" 16 "rx3" w0 = (Ok r, sent "rx3" w0) /\
    first_match [mkExon 10 20; mkExon 25 30; mkExon 15 18] 16 r /\
    ([mkExon 10 20; mkExon 25 30; mkExon 15 18] = [] -> r = None).
Proof.
  apply (find_exon_first_match service_overlap "7" 16 "rx3" w0 (sent "rx3" w0)
           [mkExon 10 20; mkExon 25 30; mkExon 15 18]).
  reflexivity.
Defined.

Example find_exon_overlap_16 :
  fst (find_exon service_overlap "7" 16 "rx3" w0) = Ok (Some 1).
Proof. reflexivity. Qed.

Example find_exon_overlap_26 :
  fst (find_exon service_overlap "7" 26 "rx3" w0) = Ok (Some 2).
Proof. reflexivity. Qed.

Example find_exon_overlap_5 :
  fst (find_exon service_overlap "7" 5 "rx3" w0) = Ok None.
Proof. reflexivity. Qed.

(* ===================================================================== *)
(** ** One row *)
(* ===================================================================== *)

Lemma process_row_run (service : Service) (gene_name : string)
  (exon_threshold : Z) (row : Row) (count : nat) (w : World) :
  process_row service gene_name exon_threshold row count w =
  match parse_row row with
  | Raise e => (Raise e, w)
  | Ok (_, second_cell, position) =>
      match decode (service (List.length (requests w)) gene_name) with
      | Raise e => (Raise e, sent gene_name w)
      | Ok fetched =>
          match keep_line exon_threshold row second_cell (classify fetched position) with
          | Some line => (Ok (S count), wrote line (sent gene_name w))
          | None => (Ok count, sent gene_name w)
          end
      end
  end.
Proof.
  unfold process_row, parse_row, bind, lift.
  destruct (index row 2) as [genomic_coordinates | e]; [| reflexivity].
  destruct (split ":" genomic_coordinates) as [| c [| p [| x t]]];
    try reflexivity.
  destruct (int_of_str p) as [position | e]; [| reflexivity].
  destruct (index row 1) as [row_1 | e]; [| reflexivity].
  rewrite find_exon_run.
  destruct (decode _) as [fetched | e]; [| reflexivity].
  unfold keep_line.
  destruct (classify fetched position) as [n |]; [| reflexivity].
  destruct (Z.of_nat n <=? exon_threshold)%Z; reflexivity.
Qed.

Lemma parse_row_label (row : Row) (chromosome second_cell : string) (position : Z) :
  parse_row row = Ok (chromosome, second_cell, position) ->
  exists row_1, nth_error row 1 = Some row_1 /\ second_cell = truncate_label row_1.
Proof.
  unfold parse_row, index.
  destruct (nth_error row 2); [| discriminate].
  destruct (split ":" s) as [| c [| p [| x t]]]; try discriminate.
  destruct (int_of_str p); [| discriminate].
  destruct (nth_error row 1) as [row_1 |]; [| discriminate].
  intros [= _ <- _]. exists row_1. split; reflexivity.
Qed.

Lemma keep_line_from (exon_threshold : Z) (row : Row)
  (chromosome second_cell : string) (position : Z)
  (exon_number : option nat) (line : string) :
  parse_row row = Ok (chromosome, second_cell, position) ->
  keep_line exon_threshold row second_cell exon_number = Some line ->
  line_from row line.
Proof.
  intros Hparse Hkeep.
  destruct (parse_row_label _ _ _ _ Hparse) as (row_1 & Hrow & ->).
  unfold keep_line in Hkeep.
  destruct exon_number as [n |]; [| discriminate].
  destruct (Z.of_nat n <=? exon_threshold)%Z; [| discriminate].
  injection Hkeep as <-.
  exists row_1, n. split; [assumption | reflexivity].
Qed.

Lemma Subseq_nil_l {A : Type} (l : list A) : Subseq [] l.
Proof. induction l; constructor; assumption. Qed.

(* ===================================================================== *)
(** ** The scan of one file *)
(* ===================================================================== *)

Ltac frame_goal :=
  first
    [ reflexivity
    | apply Forall2_nil
    | apply Subseq_nil_l
    | lia
    | let c := fresh "c" in
      let Heq := fresh "Heq" in
      intros c Heq; first [ discriminate Heq | injection Heq as <-; lia ] ].

Section Scan.

Variable service : Service.
Variable gene_name : string.
Variable exon_threshold : Z.

Let scan := scan_rows service gene_name exon_threshold.

(** Once the count is 5 the loop breaks at the next row the reader
    yields, whatever that row is and however the reader ends later. *)
Lemma scan_rows_stops (pre rest : list Row) (ending : option Exn) :
  forall (count : nat) (w : World),
    fst (scan pre None count w) = Ok 5 ->
    rest <> [] \/ ending = None ->
    scan (pre ++ rest) ending count w = scan pre None count w.
Proof.
  subst scan.
  induction pre as [| row pre' IH]; intros count w H Hmore.
  - simpl in H. injection H as ->.
    destruct rest as [| r rest']; [| reflexivity].
    destruct Hmore as [Hne | ->]; [congruence | reflexivity].
  - cbn [scan_rows app] in *.
    destruct (5 <=? count); [reflexivity |].
    destruct row as [| field fields].
    + apply IH; assumption.
    + unfold bind in *.
      destruct (process_row service gene_name exon_threshold
                  (field :: fields) count w) as [[count' | e] w1].
      * apply IH; assumption.
      * reflexivity.
Qed.

(** The frame of a scan: it only appends lines to the output and
    requests to the log; every appended line comes from a row, in row
    order, and the final count is the start count plus the lines. *)
Lemma scan_rows_general (rows : list Row) (ending : option Exn) :
  forall (count : nat) (w : World),
    count <= 5 ->
    exists (picked : list Row) (kept : list string),
      output (snd (scan rows ending count w)) = output w ++ kept /\
      Forall2 line_from picked kept /\
      Subseq picked rows /\
      count + List.length kept <= 5 /\
      (forall c, fst (scan rows ending count w) = Ok c ->
                 c = count + List.length kept) /\
      console (snd (scan rows ending count w)) = console w /\
      total (snd (scan rows ending count w)) = total w /\
      progress (snd (scan rows ending count w)) = progress w.
Proof.
  subst scan.
  induction rows as [| row rows' IH]; intros count w Hc.
  - exists [], []. cbn [scan_rows].
    destruct ending as [e |]; simpl; rewrite app_nil_r;
      repeat apply conj; frame_goal.
  - cbn [scan_rows].
    destruct (5 <=? count) eqn:Hfull.
    + exists [], []. simpl. rewrite app_nil_r. repeat apply conj; frame_goal.
    + apply Nat.leb_gt in Hfull.
      destruct row as [| field fields].
      * destruct (IH count w Hc) as (picked & kept & H1 & H2 & H3 & H4 & H5 & H6).
        exists picked, kept.
        repeat apply conj; try assumption; try apply H6.
        apply Subseq_skip. assumption.
      * unfold bind. rewrite process_row_run.
        destruct (parse_row (field :: fields))
          as [[[chromosome second_cell] position] | e] eqn:Hparse.
        2:{ exists [], []. simpl. rewrite app_nil_r.
            repeat apply conj; frame_goal. }
        destruct (decode _) as [fetched | e].
        2:{ exists [], []. simpl. rewrite app_nil_r.
            repeat apply conj; frame_goal. }
        destruct (keep_line _ _ _ _) as [line |] eqn:Hkeep.
        -- destruct (IH (S count) (wrote line (sent gene_name w)) ltac:(lia))
             as (picked & kept & H1 & H2 & H3 & H4 & H5 & H6 & H7 & H8).
           exists ((field :: fields) :: picked), (line :: kept).
           rewrite H1, H6, H7, H8. simpl.
           rewrite <- app_assoc. simpl.
           repeat apply conj; try reflexivity; try lia.
           ++ constructor; [| assumption].
              eapply keep_line_from; eassumption.
           ++ apply Subseq_take. assumption.
           ++ intros c Hcount. rewrite (H5 c Hcount). lia.
        -- destruct (IH count (sent gene_name w) Hc)
             as (picked & kept & H1 & H2 & H3 & H4 & H5 & H6 & H7 & H8).
           exists picked, kept.
           rewrite H1, H6, H7, H8. simpl.
           repeat apply conj; try reflexivity; try assumption.
           apply Subseq_skip. assumption.
Qed.

(** Under a stationary service and over well-formed rows, the scan
    writes the first [5 - count] qualifying lines, however the reader
    ends; when it ends with the end of the file the scan returns. *)
Lemma scan_rows_stationary (answer : Result (option (list Exon)))
  (rows : list Row) (ending : option Exn) :
  Forall (well_formed answer exon_threshold) rows ->
  forall (count : nat) (w : World),
    count <= 5 ->
    stationary service gene_name (List.length (requests w)) answer ->
    let lines := firstn (5 - count) (qualifying_lines answer exon_threshold rows) in
    (ending = None ->
     fst (scan rows ending count w) = Ok (count + List.length lines)) /\
    output (snd (scan rows ending count w)) = output w ++ lines.
Proof.
  subst scan.
  induction 1 as [| row rows' Hrow Hrows IH]; intros count w Hc Hst; cbn [scan_rows].
  - cbn [qualifying_lines flat_map]. cbv zeta.
    rewrite firstn_nil, app_nil_r. cbn [List.length].
    split.
    + intros ->. cbn. f_equal. lia.
    + destruct ending; reflexivity.
  - destruct (5 <=? count) eqn:Hfull.
    + apply Nat.leb_le in Hfull.
      replace (5 - count) with 0 by lia.
      simpl. rewrite app_nil_r. split; [intros _; f_equal; lia | reflexivity].
    + apply Nat.leb_gt in Hfull.
      destruct row as [| field fields].
      * simpl. apply IH; assumption.
      * destruct Hrow as [verdict Hverdict].
        unfold bind. rewrite process_row_run.
        rewrite (Hst (List.length (requests w)) (le_n _)).
        remember (5 - count) as budget eqn:Hbudget.
        simpl in Hverdict |- *.
        destruct (parse_row (field :: fields))
          as [[[chromosome second_cell] position] | e]; [| discriminate].
        destruct answer as [fetched | e]; [| discriminate].
        assert (Hnext : forall w', requests w' = requests w ++ [gene_name] ->
                          stationary service gene_name
                            (List.length (requests w')) (Ok fetched)).
        { intros w' Hw' k Hk. apply Hst.
          rewrite Hw', length_app in Hk. simpl in Hk. lia. }
        destruct (keep_line _ _ _ _) as [line |].
        -- destruct (IH (S count) (wrote line (sent gene_name w)) ltac:(lia)
                       (Hnext (wrote line (sent gene_name w)) eq_refl))
             as [IH1 IH2].
           rewrite IH2. subst budget.
           replace (5 - count) with (S (5 - S count)) by lia.
           cbn [firstn app List.length output wrote sent].
           rewrite <- app_assoc. cbn [app].
           split; [| reflexivity].
           intros Hend. rewrite (IH1 Hend). f_equal. lia.
        -- simpl.
           destruct (IH count (sent gene_name w) Hc
                       (Hnext (sent gene_name w) eq_refl)) as [IH1 IH2].
           rewrite IH2. subst budget. split; [| reflexivity].
           intros Hend. rewrite (IH1 Hend). reflexivity.
Qed.

End Scan.

(* ===================================================================== *)
(** ** Splitting the coordinate field *)
(* ===================================================================== *)

Lemma split_no_colon (s : string) :
  has_colon s = false -> split ":" s = [s].
Proof.
  induction s as [| c s' IH]; simpl; [reflexivity |].
  intros H. apply orb_false_iff in H as [Hc Hs].
  rewrite Hc, (IH Hs). reflexivity.
Qed.

Lemma split_at_colon (chromosome rest : string) :
  has_colon chromosome = false ->
  split ":" (chromosome ++ ":" ++ rest) = chromosome :: split ":" rest.
Proof.
  induction chromosome as [| c s' IH]; simpl; [reflexivity |].
  intros H. apply orb_false_iff in H as [Hc Hs].
  rewrite Hc. simpl in IH. rewrite (IH Hs). reflexivity.
Qed.

(* ===================================================================== *)
(** ** [int] and the integer literals *)
(* ===================================================================== *)

Lemma append_assoc3 (a b c : string) :
  ((a ++ b) ++ c)%string = (a ++ b ++ c)%string.
Proof.
  induction a as [| x a' IH]; cbn [String.append];
    [reflexivity | rewrite IH; reflexivity].
Qed.

Lemma digit_value_is_digit (c : ascii) :
  is_digit c = true <-> exists d : Z, digit_value c = Some d.
Proof.
  unfold is_digit, digit_value.
  destruct ((48 <=? nat_of_ascii c) && (nat_of_ascii c <=? 57)); split.
  - intros _. eexists. reflexivity.
  - reflexivity.
  - discriminate.
  - intros [d H]. discriminate H.
Qed.

Lemma is_digit_not_space (c : ascii) : is_digit c = true -> is_space c = false.
Proof.
  unfold is_digit, is_space. intros H.
  apply andb_true_iff in H as [H1 H2].
  apply Nat.leb_le in H1. apply Nat.leb_le in H2.
  assert (E1 : (nat_of_ascii c <=? 13) = false) by (apply Nat.leb_gt; lia).
  assert (E2 : (nat_of_ascii c =? 32) = false) by (apply Nat.eqb_neq; lia).
  assert (E3 : (nat_of_ascii c =? 133) = false) by (apply Nat.eqb_neq; lia).
  assert (E4 : (nat_of_ascii c =? 160) = false) by (apply Nat.eqb_neq; lia).
  rewrite E1, E2, E3, E4, andb_false_r. reflexivity.
Qed.

Lemma is_digit_not_sign (c : ascii) :
  is_digit c = true -> Ascii.eqb c "+" = false /\ Ascii.eqb c "-" = false.
Proof.
  intros H. split.
  - destruct (Ascii.eqb c "+") eqn:E; [| reflexivity].
    apply Ascii.eqb_eq in E. subst c. discriminate H.
  - destruct (Ascii.eqb c "-") eqn:E; [| reflexivity].
    apply Ascii.eqb_eq in E. subst c. discriminate H.
Qed.

(** What [parse_digits] accepts, by the flag it is entered with. *)
Lemma parse_digits_sound (s : string) :
  forall (acc : Z) (prev_digit : bool) (z : Z),
    parse_digits acc prev_digit s = Some z ->
    if prev_digit
    then s = EmptyString \/ digit_part s \/
         exists s', s = String "_" s' /\ digit_part s'
    else digit_part s.
Proof.
  induction s as [| c s' IH]; intros acc prev_digit z; cbn [parse_digits].
  - destruct prev_digit; [intros _; left; reflexivity | discriminate].
  - destruct (digit_value c) as [d |] eqn:Hd.
    + intros Hparse.
      assert (Hc : is_digit c = true)
        by (apply digit_value_is_digit; exists d; assumption).
      assert (Hpart : digit_part (String c s')).
      { specialize (IH _ _ _ Hparse). cbn in IH.
        destruct IH as [-> | [Hs | (s'' & -> & Hs)]].
        - apply digit_last. assumption.
        - apply digit_next; assumption.
        - apply digit_underscore; assumption. }
      destruct prev_digit; [right; left |]; assumption.
    + destruct (Ascii.eqb c "_") eqn:Hu; [| discriminate].
      destruct prev_digit; [| discriminate].
      cbn [andb]. intros Hparse.
      apply Ascii.eqb_eq in Hu. subst c.
      right. right. exists s'. split; [reflexivity |].
      apply (IH _ _ _ Hparse).
Qed.

Lemma parse_digits_complete (s : string) :
  digit_part s ->
  forall (acc : Z) (prev_digit : bool),
    exists z : Z, parse_digits acc prev_digit s = Some z.
Proof.
  induction 1 as [c Hc | c s' Hc _ IH | c s' Hc _ IH]; intros acc prev_digit;
    apply digit_value_is_digit in Hc as [d Hd]; cbn [parse_digits]; rewrite Hd.
  - eexists. reflexivity.
  - apply IH.
  - cbn [parse_digits]. cbn. apply IH.
Qed.

Lemma lstrip_spec (s : string) :
  exists left : string, s = (left ++ lstrip s)%string /\ all_space left = true.
Proof.
  induction s as [| c s' [left [Hs Hleft]]]; cbn [lstrip].
  - exists EmptyString. split; reflexivity.
  - destruct (is_space c) eqn:Hc.
    + exists (String c left). cbn [String.append all_space].
      rewrite <- Hs, Hc, Hleft. split; reflexivity.
    + exists EmptyString. split; reflexivity.
Qed.

Lemma rstrip_spec (s : string) :
  exists right : string, s = (rstrip s ++ right)%string /\ all_space right = true.
Proof.
  induction s as [| c s' [right [Hs Hright]]]; cbn [rstrip].
  - exists EmptyString. split; reflexivity.
  - destruct (rstrip s') as [| x r] eqn:Hr.
    + cbn [String.append] in Hs. subst s'.
      destruct (is_space c) eqn:Hc.
      * exists (String c right). cbn [String.append all_space].
        rewrite Hc, Hright. split; reflexivity.
      * exists right. split; [reflexivity | assumption].
    + exists right. cbn [String.append] in *. rewrite <- Hs.
      split; [reflexivity | assumption].
Qed.

Lemma lstrip_app_space (left t : string) :
  all_space left = true -> lstrip (left ++ t) = lstrip t.
Proof.
  induction left as [| c left' IH]; cbn [String.append all_space lstrip];
    [reflexivity |].
  intros H. apply andb_true_iff in H as [Hc Hleft].
  rewrite Hc. apply IH. assumption.
Qed.

Lemma rstrip_all_space (right : string) :
  all_space right = true -> rstrip right = EmptyString.
Proof.
  induction right as [| c right' IH]; cbn [all_space rstrip]; [reflexivity |].
  intros H. apply andb_true_iff in H as [Hc Hright].
  rewrite (IH Hright), Hc. reflexivity.
Qed.

Lemma rstrip_app_space (t right : string) :
  all_space right = true -> rstrip (t ++ right) = rstrip t.
Proof.
  intros Hright.
  induction t as [| c t' IH]; cbn [String.append rstrip].
  - apply rstrip_all_space. assumption.
  - rewrite IH. reflexivity.
Qed.

Lemma rstrip_digit_part (body : string) :
  digit_part body -> rstrip body = body /\ body <> EmptyString.
Proof.
  induction 1 as [c Hc | c s' Hc _ [IH Hne] | c s' Hc _ [IH Hne]].
  - cbn [rstrip]. rewrite (is_digit_not_space c Hc). split; [reflexivity | discriminate].
  - cbn [rstrip]. rewrite IH. destruct s'; [congruence |].
    split; [reflexivity | discriminate].
  - cbn [rstrip]. rewrite IH. destruct s'; [congruence |].
    split; [reflexivity | discriminate].
Qed.

Lemma rstrip_cons_fixed (c : ascii) (t : string) :
  rstrip t = t -> t <> EmptyString -> rstrip (String c t) = String c t.
Proof.
  intros Ht Hne. cbn [rstrip]. rewrite Ht. destruct t; [congruence | reflexivity].
Qed.

Lemma int_of_str_raises (s : string) (e : Exn) :
  int_of_str s = Raise e -> e = ValueError.
Proof.
  unfold int_of_str.
  match goal with |- context [match ?parsed with Some z => _ | None => _ end] =>
    destruct parsed end.
  - destruct (count_digits s <=? int_max_str_digits); [discriminate |].
    intros [= <-]. reflexivity.
  - intros [= <-]. reflexivity.
Qed.

(** [int] accepts exactly the numeric strings. *)
Lemma int_of_str_numeric (s : string) :
  (exists z : Z, int_of_str s = Ok z) <-> numeric s.
Proof.
  split.
  - intros [z Hint]. unfold int_of_str in Hint.
    destruct (lstrip_spec s) as (left & Hs & Hleft).
    destruct (rstrip_spec (lstrip s)) as (right & Hcore & Hright).
    assert (Hlit : forall sign body : string,
               rstrip (lstrip s) = (sign ++ body)%string ->
               (sign = EmptyString \/ sign = "+" \/ sign = "-") ->
               digit_part body -> int_literal s).
    { intros sign body Hbody Hsign Hpart.
      exists left, sign, body, right.
      rewrite Hs at 1. rewrite Hcore at 1. rewrite Hbody, append_assoc3.
      repeat split; assumption. }
    destruct (rstrip (lstrip s)) as [| c r] eqn:Hbody; [discriminate Hint |].
    assert (Hcap : count_digits s <= 4300).
    { destruct (count_digits s <=? int_max_str_digits) eqn:Hle.
      - apply Nat.leb_le in Hle. exact Hle.
      - destruct (if Ascii.eqb c "+" then _ else _); discriminate Hint. }
    split; [| exact Hcap].
    destruct (Ascii.eqb c "+") eqn:Hplus.
    + apply Ascii.eqb_eq in Hplus. subst c.
      destruct (parse_digits 0 false r) as [z' |] eqn:Hparse; [| discriminate Hint].
      apply (Hlit "+"%string r eq_refl); [right; left; reflexivity |].
      apply (parse_digits_sound _ _ _ _ Hparse).
    + destruct (Ascii.eqb c "-") eqn:Hminus.
      * apply Ascii.eqb_eq in Hminus. subst c.
        destruct (parse_digits 0 false r) as [z' |] eqn:Hparse; [| discriminate Hint].
        apply (Hlit "-"%string r eq_refl); [right; right; reflexivity |].
        apply (parse_digits_sound _ _ _ _ Hparse).
      * destruct (parse_digits 0 false (String c r)) as [z' |] eqn:Hparse;
          [| discriminate Hint].
        apply (Hlit EmptyString (String c r) eq_refl); [left; reflexivity |].
        apply (parse_digits_sound _ _ _ _ Hparse).
  - intros [(left & sign & body & right & -> & Hleft & Hright & Hsign & Hpart) Hcap].
    destruct (rstrip_digit_part body Hpart) as [Hfix Hne].
    destruct (parse_digits_complete body Hpart 0 false) as [z Hz].
    assert (Hfirst : exists c r, body = String c r /\ is_digit c = true).
    { destruct Hpart; eexists; eexists; split; try reflexivity; assumption. }
    destruct Hfirst as (c & r & Hbody & Hc).
    assert (Hcore : rstrip (lstrip (left ++ sign ++ body ++ right)) =
                    (sign ++ body)%string).
    { rewrite (lstrip_app_space _ _ Hleft), <- append_assoc3.
      assert (Hl : lstrip ((sign ++ body) ++ right) = ((sign ++ body) ++ right)%string).
      { destruct Hsign as [-> | [-> | ->]]; cbn [String.append lstrip].
        - rewrite Hbody. cbn [String.append lstrip].
          rewrite (is_digit_not_space c Hc). reflexivity.
        - reflexivity.
        - reflexivity. }
      rewrite Hl, (rstrip_app_space _ _ Hright).
      destruct Hsign as [-> | [-> | ->]]; cbn [String.append].
      - assumption.
      - apply rstrip_cons_fixed; assumption.
      - apply rstrip_cons_fixed; assumption. }
    unfold int_of_str. rewrite Hcore.
    apply Nat.leb_le in Hcap. unfold int_max_str_digits. rewrite Hcap.
    destruct Hsign as [-> | [-> | ->]]; cbn [String.append].
    + rewrite Hbody. destruct (is_digit_not_sign c Hc) as [-> ->].
      rewrite <- Hbody, Hz. eexists. reflexivity.
    + cbn. rewrite Hz. eexists. reflexivity.
    + cbn. rewrite Hz. eexists. reflexivity.
Qed.

Lemma int_of_str_not_numeric (s : string) :
  ~ numeric s -> int_of_str s = Raise ValueError.
Proof.
  intros Hnot.
  destruct (int_of_str s) as [z | e] eqn:Hint.
  - exfalso. apply Hnot. apply int_of_str_numeric. exists z. assumption.
  - rewrite (int_of_str_raises s e Hint). reflexivity.
Qed.

Lemma parse_row_malformed (row : Row) (genomic_coordinates : string) :
  nth_error row 2 = Some genomic_coordinates ->
  malformed genomic_coordinates ->
  parse_row row = Raise ValueError.
Proof.
  intros Hfield Hbad. unfold parse_row, index. rewrite Hfield.
  destruct Hbad as [Hnone | (chromosome & position & -> & Hc & Hp & Hnot)].
  - rewrite (split_no_colon _ Hnone). reflexivity.
  - rewrite (split_at_colon _ _ Hc), (split_no_colon _ Hp).
    rewrite (int_of_str_not_numeric _ Hnot). reflexivity.
Qed.

Lemma parse_row_short (row : Row) :
  List.length row < 3 -> parse_row row = Raise IndexError.
Proof.
  intros H. unfold parse_row, index.
  assert (Hnone : nth_error row 2 = None) by (apply nth_error_None; lia).
  rewrite Hnone. reflexivity.
Qed.

(* ===================================================================== *)
(** ** One file, the loop over the directory, the whole run *)
(* ===================================================================== *)

Section Run.

Variable service : Service.

(** A scan that ends below 5 goes on with the rows that follow. *)
Lemma scan_rows_app (gene_name : string) (exon_threshold : Z)
  (pre rest : list Row) (ending : option Exn) :
  forall (count count' : nat) (w w' : World),
    scan_rows service gene_name exon_threshold pre None count w = (Ok count', w') ->
    count' < 5 ->
    scan_rows service gene_name exon_threshold (pre ++ rest) ending count w =
    scan_rows service gene_name exon_threshold rest ending count' w'.
Proof.
  induction pre as [| row pre' IH]; intros count count' w w' Hscan Hlt.
  - simpl in Hscan. injection Hscan as <- <-. reflexivity.
  - cbn [scan_rows app] in *.
    destruct (5 <=? count) eqn:Hfull.
    + injection Hscan as <- <-. apply Nat.leb_le in Hfull. lia.
    + destruct row as [| field fields].
      * apply (IH _ _ _ _ Hscan Hlt).
      * unfold bind in *.
        destruct (process_row service gene_name exon_threshold
                    (field :: fields) count w) as [[c1 | e] w1].
        -- apply (IH _ _ _ _ Hscan Hlt).
        -- discriminate Hscan.
Qed.

(** A report file whose gene has exons and whose first row the reader
    delivers: header, scan of the other rows, blank line. *)
Lemma process_file_found (name : string) (header : Row) (data : list Row)
  (ending : option Exn)
  (exon : Exon) (others : list Exon) (exon_threshold : Z) (w w1 : World) :
  endswith name ".tsv" = true ->
  fetch_exon_data service (splitext_root name) w = (Ok (Some (exon :: others)), w1) ->
  calculate_exon_threshold (Z.of_nat (List.length (exon :: others))) = Ok exon_threshold ->
  process_file service (mkDirEntry name (Some (header :: data)) ending) w =
  match scan_rows service (splitext_root name) exon_threshold data ending 0
          (block_start (splitext_root name) w1) with
  | (Ok _, w') => (Ok tt, block_end w')
  | (Raise e, w') => (Raise e, w')
  end.
Proof.
  intros Hext Hfetch Hthr.
  unfold process_file. cbn [file_name tsv_rows reader_error tl]. rewrite Hext.
  unfold bind at 1. rewrite Hfetch.
  unfold bind at 1. unfold lift at 1. rewrite Hthr.
  unfold bind, write, pbar_update, block_start, block_end, wrote, advanced.
  cbn [requests output console total progress].
  destruct (scan_rows _ _ _ _ _ _ _) as [[c | e] w']; reflexivity.
Qed.

(** A report file whose gene has no exons: a notice, nothing written. *)
Lemma process_file_skipped (entry : DirEntry) (w : World) :
  endswith (file_name entry) ".tsv" = true ->
  (fst (fetch_exon_data service (splitext_root (file_name entry)) w) = Ok None \/
   fst (fetch_exon_data service (splitext_root (file_name entry)) w) = Ok (Some [])) ->
  process_file service entry w =
  (Ok tt, skipped (splitext_root (file_name entry)) (file_name entry) w).
Proof.
  intros Hext Hfetch.
  unfold process_file. rewrite Hext.
  unfold bind at 1.
  rewrite fetch_exon_data_run in *. cbn [fst] in Hfetch.
  destruct Hfetch as [-> | ->]; reflexivity.
Qed.

Lemma process_files_app (done later : list DirEntry) :
  forall w : World,
    process_files service (done ++ later) w =
    match process_files service done w with
    | (Ok _, w1) => process_files service later w1
    | (Raise e, w1) => (Raise e, w1)
    end.
Proof.
  induction done as [| entry done' IH]; intros w; cbn [process_files app].
  - reflexivity.
  - unfold bind.
    destruct (process_file service entry w) as [[[] | e] w1].
    + apply IH.
    + reflexivity.
Qed.

Lemma try_block_run (fs : FileSystem) (names entries : list DirEntry)
  (directory_path output_file_path : string) (w : World) :
  listdir fs = Some names ->
  output_writable fs = true ->
  listdir_again fs = Some entries ->
  try_block service fs directory_path output_file_path w =
  match process_files service entries (started names w) with
  | (Ok _, w') => (Ok tt, printed (Completed directory_path output_file_path) w')
  | (Raise e, w') => (Raise e, w')
  end.
Proof.
  intros Hls Hout Hagain.
  unfold try_block, os_listdir, open_output, tqdm, bind, ret, print, started, printed.
  rewrite Hls, Hout, Hagain. cbn [requests output console total progress].
  destruct (process_files service entries _) as [[[] | e] w']; reflexivity.
Qed.

(** The run when the loop raises in one file: one error line, the world
    otherwise as the exception left it. *)
Lemma run_aborts (fs : FileSystem) (names done later : list DirEntry)
  (entry : DirEntry) (directory_path output_file_path : string)
  (w w1 w3 : World) (e : Exn) :
  listdir fs = Some names ->
  output_writable fs = true ->
  listdir_again fs = Some (done ++ entry :: later) ->
  process_files service done (started names w) = (Ok tt, w1) ->
  process_file service entry w1 = (Raise e, w3) ->
  read_tsv_files_in_directory_and_write_output service fs
    directory_path output_file_path w =
  printed (ErrorOccurred e) w3.
Proof.
  intros Hls Hout Hagain Hdone Hfile.
  unfold read_tsv_files_in_directory_and_write_output.
  rewrite (try_block_run fs _ _ directory_path output_file_path w Hls Hout Hagain).
  rewrite process_files_app, Hdone.
  cbn [process_files]. unfold bind. rewrite Hfile. reflexivity.
Qed.

(** A file aborts at a row reached with fewer than 5 rows kept. *)
Lemma process_file_aborts_at_row (name : string) (header : Row)
  (pre post : list Row) (ending : option Exn) (bad : Row)
  (exon : Exon) (others : list Exon)
  (exon_threshold : Z) (count : nat) (w1 w2 w3 : World) (e : Exn) :
  endswith name ".tsv" = true ->
  fetch_exon_data service (splitext_root name) w1 = (Ok (Some (exon :: others)), w2) ->
  calculate_exon_threshold (Z.of_nat (List.length (exon :: others))) = Ok exon_threshold ->
  scan_rows service (splitext_root name) exon_threshold pre None 0
    (block_start (splitext_root name) w2) = (Ok count, w3) ->
  count < 5 ->
  bad <> [] ->
  parse_row bad = Raise e ->
  process_file service (mkDirEntry name (Some (header :: pre ++ bad :: post)) ending) w1 =
  (Raise e, w3).
Proof.
  intros Hext Hfetch Hthr Hscan Hlt Hne Hparse.
  rewrite (process_file_found name header _ ending exon others exon_threshold w1 w2
             Hext Hfetch Hthr).
  rewrite (scan_rows_app _ _ pre (bad :: post) ending 0 count _ w3 Hscan Hlt).
  cbn [scan_rows].
  apply Nat.leb_gt in Hlt. rewrite Hlt.
  destruct bad as [| field fields]; [congruence |].
  unfold bind. rewrite process_row_run, Hparse. reflexivity.
Qed.

End Run.

(* ===================================================================== *)
(** ** Purity of the classifier *)
(* ===================================================================== *)

(** C3 (as amended).  [find_exon] is not pure: every call sends one
    lookup request for the gene, which is its only effect on the world
    (no state of its own is kept), and it classifies the coordinate
    against the exon list that this fresh fetch returns.  During the scan
    every non-empty row whose fields parse therefore costs one more
    request, and the verdict depends only on the answer to that request
    and on the coordinate. *)
Theorem find_exon_fetches_again (service : Service) (chromosome : string)
  (coordinate : Z) (gene_name : string) (w : World) :
  find_exon service chromosome coordinate gene_name w =
    (match fst (fetch_exon_data service gene_name w) with
     | Ok fetched => Ok (classify fetched coordinate)
     | Raise e => Raise e
     end,
     snd (fetch_exon_data service gene_name w)) /\
  snd (find_exon service chromosome coordinate gene_name w) = sent gene_name w /\
  (forall (exon_threshold : Z) (row : Row) (count : nat)
          (chrom label : string) (position : Z),
      parse_row row = Ok (chrom, label, position) ->
      requests (snd (process_row service gene_name exon_threshold row count w)) =
      requests w ++ [gene_name]).
Proof.
  rewrite find_exon_run, fetch_exon_data_run. cbn [fst snd].
  repeat apply conj; try reflexivity.
  intros exon_threshold row count chrom label position Hparse.
  rewrite process_row_run, Hparse.
  destruct (decode _) as [fetched | e]; [| reflexivity].
  destruct (keep_line _ _ _ _); reflexivity.
Qed.

Lemma find_exon_fetches_again_witness :
  requests (snd (process_row service_two_exons "geneA" 1
                   (guide "AAAACCC" "10" "0.1") 0 (sent "geneA" w0))) =
  ["geneA"; "geneA"].
Proof.
  exact (proj2 (proj2 (find_exon_fetches_again service_two_exons "5" 10 "geneA"
                         (sent "geneA" w0)))
           1%Z (guide "AAAACCC" "10" "0.1") 0 "5" "AAAA" 10%Z eq_refl).
Defined.

(** C3 as stated fails.  A call of [find_exon] changes the world (the
    request log grows), and under a service whose annotation changes
    between two requests the verdict for position 50 is not the
    classification against the list fetched in step 3: that list is
    [{1,100}], in which 50 lies in exon 1, but the classifier fetches
    again, gets [{200,300}] and answers [None]. *)
Lemma find_exon_not_pure :
  snd (find_exon service_AB "5" 50 "geneA" w0) <> w0 /\
  fetch_exon_data service_shifting "geneA" w0 =
    (Ok (Some [mkExon 1 100]), sent "geneA" w0) /\
  find_exon_loop 1 [mkExon 1 100] 50 = Some 1 /\
  find_exon service_shifting "5" 50 "geneA" (sent "geneA" w0) =
    (Ok None, sent "geneA" (sent "geneA" w0)).
Proof.
  split; [| split; [| split]].
  - intros H. discriminate H.
  - reflexivity.
  - reflexivity.
  - reflexivity.
Qed.

(* ===================================================================== *)
(** ** The chromosome *)
(* ===================================================================== *)

Lemma parse_row_at_colon (f0 f1 chromosome rest : string) (tail : list string) :
  has_colon chromosome = false ->
  parse_row (f0 :: f1 :: (chromosome ++ ":" ++ rest)%string :: tail) =
  match split ":" rest with
  | [position] =>
      match int_of_str position with
      | Ok z => Ok (replace_chr chromosome, truncate_label f1, z)
      | Raise e => Raise e
      end
  | _ => Raise ValueError
  end.
Proof.
  intros Hc. unfold parse_row, index. cbn [nth_error].
  rewrite (split_at_colon _ _ Hc).
  destruct (split ":" rest) as [| a [| b t]]; reflexivity.
Qed.

Lemma keep_line_decision (exon_threshold : Z) (row1 row2 : Row)
  (label : string) (exon_number : option nat) :
  match keep_line exon_threshold row1 label exon_number,
        keep_line exon_threshold row2 label exon_number with
  | Some _, Some _ | None, None => True
  | _, _ => False
  end.
Proof.
  unfold keep_line.
  destruct exon_number as [n |]; [| exact I].
  destruct (Z.of_nat n <=? exon_threshold)%Z; exact I.
Qed.

(** C8.  [find_exon] never looks at its chromosome argument: for any
    two chromosome values the call is the same computation.  Hence two
    rows that differ only in the chromosome part of the coordinate field
    get the same verdict from the scan: a position inside an early exon
    is kept whatever chromosome the row names. *)
Theorem find_exon_ignores_chromosome :
  (forall (service : Service) (c1 c2 : string) (position : Z)
          (gene_name : string) (w : World),
      find_exon service c1 position gene_name w =
      find_exon service c2 position gene_name w) /\
  (forall (service : Service) (gene_name : string) (exon_threshold : Z)
          (f0 f1 c1 c2 rest : string) (tail : list string)
          (count : nat) (w : World),
      has_colon c1 = false ->
      has_colon c2 = false ->
      fst (process_row service gene_name exon_threshold
             (f0 :: f1 :: (c1 ++ ":" ++ rest)%string :: tail) count w) =
      fst (process_row service gene_name exon_threshold
             (f0 :: f1 :: (c2 ++ ":" ++ rest)%string :: tail) count w)).
Proof.
  split.
  - intros. reflexivity.
  - intros service gene_name exon_threshold f0 f1 c1 c2 rest tail count w H1 H2.
    rewrite !process_row_run.
    rewrite (parse_row_at_colon f0 f1 c1 rest tail H1).
    rewrite (parse_row_at_colon f0 f1 c2 rest tail H2).
    destruct (split ":" rest) as [| a [| b t]]; try reflexivity.
    destruct (int_of_str a) as [z | e]; [| reflexivity].
    destruct (decode _) as [fetched | e]; [| reflexivity].
    pose proof (keep_line_decision exon_threshold
                  (f0 :: f1 :: (c1 ++ ":" ++ rest)%string :: tail)
                  (f0 :: f1 :: (c2 ++ ":" ++ rest)%string :: tail)
                  (truncate_label f1) (classify fetched z)) as Hsame.
    destruct (keep_line _ _ _ _); destruct (keep_line _ _ _ _);
      try reflexivity; contradiction.
Qed.

(** geneA lies on one chromosome; rows naming chromosome 5 and
    chromosome 19 at position 10 are both kept. *)
Lemma find_exon_ignores_chromosome_witness :
  fst (process_row service_two_exons "geneA" 1
         ["g"; "AAAACCC"; "chr5:10"; "0.1"] 0 w0) =
  fst (process_row service_two_exons "geneA" 1
         ["g"; "AAAACCC"; "chr19:10"; "0.1"] 0 w0).
Proof.
  exact (proj2 find_exon_ignores_chromosome service_two_exons "geneA" 1%Z
           "g" "AAAACCC" "chr5" "chr19" "10" ["0.1"] 0 w0 eq_refl eq_refl).
Defined.

Example chromosome_19_kept :
  fst (process_row service_two_exons "geneA" 1
         ["g"; "AAAACCC"; "chr19:10"; "0.1"] 0 w0) = Ok 1.
Proof. reflexivity. Qed.

(* ===================================================================== *)
(** ** The display label *)
(* ===================================================================== *)

Lemma substring_prefix (s : string) :
  forall n : nat,
    n <= String.length s ->
    exists t : string,
      s = (substring 0 n s ++ t)%string /\
      String.length t = String.length s - n /\
      String.length (substring 0 n s) = n.
Proof.
  induction s as [| c s' IH]; intros n Hn.
  - simpl in Hn. assert (n = 0) by lia. subst n.
    exists EmptyString. repeat split.
  - destruct n as [| n'].
    + exists (String c s'). repeat split.
    + simpl in Hn.
      destruct (IH n' ltac:(lia)) as (t & Hs & Ht & Hl).
      exists t. cbn [substring String.append String.length].
      rewrite <- Hs, Hl. repeat split. assumption.
Qed.

(** C7.  The display label is the second field itself when that field
    has at most 3 characters, and the second field without its last 3
    characters when it has more; the line written for a kept row carries
    the label of that row's second field. *)
Theorem truncate_label_spec (row_1 : string) :
  (String.length row_1 <= 3 -> truncate_label row_1 = row_1) /\
  (3 < String.length row_1 ->
   exists dropped : string,
     String.length dropped = 3 /\
     row_1 = (truncate_label row_1 ++ dropped)%string /\
     String.length (truncate_label row_1) = String.length row_1 - 3) /\
  (forall (service : Service) (gene_name : string) (exon_threshold : Z)
          (row : Row) (count : nat) (w w' : World),
      nth_error row 1 = Some row_1 ->
      process_row service gene_name exon_threshold row count w = (Ok (S count), w') ->
      exists n : nat,
        output w' =
        output w ++ [format_line (truncate_label row_1) (last row EmptyString) n]).
Proof.
  repeat apply conj.
  - intros H. unfold truncate_label.
    apply Nat.ltb_ge in H. rewrite H. reflexivity.
  - intros H. unfold truncate_label.
    pose proof H as Hlt. apply Nat.ltb_lt in Hlt. rewrite Hlt.
    destruct (substring_prefix row_1 (String.length row_1 - 3) ltac:(lia))
      as (t & Hs & Ht & Hl).
    exists t. repeat apply conj; [lia | assumption | assumption].
  - intros service gene_name exon_threshold row count w w' Hrow Hrun.
    rewrite process_row_run in Hrun.
    destruct (parse_row row) as [[[chromosome label] position] | e] eqn:Hparse;
      [| discriminate].
    destruct (parse_row_label _ _ _ _ Hparse) as (row_1' & Hrow' & ->).
    rewrite Hrow in Hrow'. injection Hrow' as <-.
    destruct (decode _) as [fetched | e]; [| discriminate].
    unfold keep_line in Hrun.
    destruct (classify fetched position) as [n |].
    + destruct (Z.of_nat n <=? exon_threshold)%Z.
      * injection Hrun as <-. exists n. reflexivity.
      * injection Hrun as Hcount _. lia.
    + injection Hrun as Hcount _. lia.
Qed.

(** A 7-character second field keeps its first 4 characters; a
    2-character one is kept whole. *)
Lemma truncate_label_spec_witness :
  truncate_label "AT" = "AT" /\
  (exists dropped : string,
     String.length dropped = 3 /\
     "ACGTCCC" = (truncate_label "ACGTCCC" ++ dropped)%string /\
     String.length (truncate_label "ACGTCCC") = 4).
Proof.
  split.
  - exact (proj1 (truncate_label_spec "AT") ltac:(simpl; lia)).
  - exact (proj1 (proj2 (truncate_label_spec "ACGTCCC")) ltac:(simpl; lia)).
Defined.

Example truncate_label_ACGTCCC : truncate_label "ACGTCCC" = "ACGT".
Proof. reflexivity. Qed.

(* ===================================================================== *)
(** ** At most five rows per file *)
(* ===================================================================== *)

(** C4.  The scan of a file appends at most 5 lines to the output; each
    comes from a row of the file and they appear in row order; a scan
    that has kept 5 rows over a prefix of the file does nothing with the
    rows after it; and when the service answers every request of the
    scan alike and the rows scanned are well formed, the lines written
    are exactly the first 5 qualifying ones (all of them when the file
    has fewer).  All of this holds however the reader ends after the
    last row. *)
Theorem scan_rows_keeps_first_five (service : Service) (gene_name : string)
  (exon_threshold : Z) (rows : list Row) (ending : option Exn) (w : World) :
  exists (picked : list Row) (kept : list string),
    output (snd (scan_rows service gene_name exon_threshold rows ending 0 w)) =
      output w ++ kept /\
    List.length kept <= 5 /\
    Forall2 line_from picked kept /\
    Subseq picked rows /\
    (forall pre rest : list Row,
        rows = pre ++ rest ->
        fst (scan_rows service gene_name exon_threshold pre None 0 w) = Ok 5 ->
        rest <> [] \/ ending = None ->
        scan_rows service gene_name exon_threshold rows ending 0 w =
        scan_rows service gene_name exon_threshold pre None 0 w) /\
    (forall (answer : Result (option (list Exon))) (pre rest : list Row),
        rows = pre ++ rest ->
        stationary service gene_name (List.length (requests w)) answer ->
        Forall (well_formed answer exon_threshold) pre ->
        rest = [] \/ 5 <= List.length (qualifying_lines answer exon_threshold pre) ->
        kept = firstn 5 (qualifying_lines answer exon_threshold pre)).
Proof.
  destruct (scan_rows_general service gene_name exon_threshold rows ending 0 w
              (Nat.le_0_l 5))
    as (picked & kept & Hout & Hfrom & Hsub & Hlen & _).
  exists picked, kept.
  split; [assumption |].
  split; [simpl in Hlen; assumption |].
  split; [assumption |].
  split; [assumption |].
  split.
  - intros pre rest -> Hfull Hmore. apply scan_rows_stops; assumption.
  - intros answer pre rest -> Hst Hwf Hcase.
    assert (Hlines : output (snd (scan_rows service gene_name exon_threshold
                                    (pre ++ rest) ending 0 w)) =
                     output w ++ firstn 5 (qualifying_lines answer exon_threshold pre)).
    { destruct rest as [| r rest'].
      - rewrite app_nil_r.
        apply (scan_rows_stationary service gene_name exon_threshold answer pre
                 ending Hwf 0 w (Nat.le_0_l 5) Hst).
      - destruct Hcase as [Hnil | Hmany]; [discriminate Hnil |].
        destruct (scan_rows_stationary service gene_name exon_threshold answer pre
                    None Hwf 0 w (Nat.le_0_l 5) Hst) as [Hcount Hpre].
        cbn zeta in Hcount, Hpre.
        replace (5 - 0) with 5 in Hcount, Hpre by reflexivity.
        specialize (Hcount eq_refl).
        rewrite firstn_length_le in Hcount by assumption.
        cbn [Nat.add] in Hcount.
        assert (Hmore : r :: rest' <> [] \/ ending = None)
          by (left; discriminate).
        rewrite (scan_rows_stops service gene_name exon_threshold pre (r :: rest')
                   ending 0 w Hcount Hmore).
        exact Hpre. }
    rewrite Hlines in Hout.
    apply app_inv_head in Hout. symmetry. assumption.
Qed.

(** A file with six qualifying rows: the block holds the first five. *)
Lemma scan_rows_keeps_first_five_witness :
  output (snd (scan_rows service_two_exons "geneA" 1 six_rows None 0 w0)) =
  firstn 5 (qualifying_lines (Ok (Some [mkExon 1 100; mkExon 150 200])) 1 six_rows).
Proof.
  destruct (scan_rows_keeps_first_five service_two_exons "geneA" 1 six_rows None w0)
    as (picked & kept & Hout & _ & _ & _ & _ & Hfirst).
  rewrite Hout.
  rewrite (Hfirst (Ok (Some [mkExon 1 100; mkExon 150 200])) six_rows []
             eq_refl
             (fun k _ => eq_refl)
             ltac:(repeat constructor; eexists; reflexivity)
             (or_introl eq_refl)).
  reflexivity.
Defined.

Example six_rows_block :
  output (snd (scan_rows service_two_exons "geneA" 1 six_rows None 0 w0)) =
  [ format_line "AAAA" "0.1" 1; format_line "CCCC" "0.2" 1;
    format_line "GGGG" "0.3" 1; format_line "TTTT" "0.4" 1;
    format_line "ACAC" "0.5" 1 ].
Proof. reflexivity. Qed.

(** C9 (as amended).  When the scan of the first rows of a file has kept
    5 of them and the reader delivers at least one more row, no field of
    the rows after the fifth kept one is ever parsed: the scan ends in
    the same world with the same count whatever those rows are (no
    colon, no number, too few fields) and however the reader ends after
    them, and the file is closed with its blank line instead of
    raising. *)
Theorem rows_after_fifth_kept_ignored (service : Service) (name : string)
  (header : Row) (pre rest : list Row) (ending : option Exn)
  (exon : Exon) (others : list Exon)
  (exon_threshold : Z) (w w1 w5 : World) :
  endswith name ".tsv" = true ->
  fetch_exon_data service (splitext_root name) w = (Ok (Some (exon :: others)), w1) ->
  calculate_exon_threshold (Z.of_nat (List.length (exon :: others))) = Ok exon_threshold ->
  scan_rows service (splitext_root name) exon_threshold pre None 0
    (block_start (splitext_root name) w1) = (Ok 5, w5) ->
  rest <> [] ->
  scan_rows service (splitext_root name) exon_threshold (pre ++ rest) ending 0
    (block_start (splitext_root name) w1) = (Ok 5, w5) /\
  process_file service (mkDirEntry name (Some (header :: pre ++ rest)) ending) w =
    (Ok tt, block_end w5).
Proof.
  intros Hext Hfetch Hthr Hscan Hrest.
  assert (Hsame : scan_rows service (splitext_root name) exon_threshold (pre ++ rest)
                    ending 0 (block_start (splitext_root name) w1) = (Ok 5, w5)).
  { rewrite scan_rows_stops; [assumption | | left; assumption].
    rewrite Hscan. reflexivity. }
  split; [assumption |].
  rewrite (process_file_found service name header _ ending exon others exon_threshold
             w w1 Hext Hfetch Hthr).
  rewrite Hsame. reflexivity.
Qed.

(** Five rows kept, then three rows that would each abort a scan, then
    a reader that fails. *)
Lemma rows_after_fifth_kept_ignored_witness :
  scan_rows service_two_exons "geneA" 1 (five_kept ++ broken_rows) (Some CsvError) 0
    (block_start "geneA" (sent "geneA" w0)) = (Ok 5, w_five_kept) /\
  process_file service_two_exons
    (mkDirEntry "geneA.tsv" (Some (header_row :: five_kept ++ broken_rows))
       (Some CsvError)) w0 =
    (Ok tt, block_end w_five_kept).
Proof.
  apply (rows_after_fifth_kept_ignored service_two_exons "geneA.tsv" header_row
           five_kept broken_rows (Some CsvError) (mkExon 1 100) [mkExon 150 200] 1 w0
           (sent "geneA" w0) w_five_kept); try (vm_compute; reflexivity).
  discriminate.
Defined.

Example broken_rows_abort_alone :
  fst (scan_rows service_two_exons "geneA" 1 broken_rows None 0 w0) = Raise ValueError.
Proof. reflexivity. Qed.

(** C9 as stated fails.  The loop asks the reader for the next row
    before it tests the count, so the row that directly follows the
    fifth kept row is still read: in a file whose five kept rows are
    followed by a line the csv reader cannot deliver, the scan has kept
    5 rows and the run nevertheless aborts, the block left without its
    blank line and the next file not processed. *)
Lemma reader_failure_after_fifth_kept_aborts :
  scan_rows service_two_exons "geneA" 1 five_kept None 0
    (block_start "geneA" (sent "geneA" w0)) = (Ok 5, w_five_kept) /\
  process_file service_two_exons
    (mkDirEntry "geneA.tsv" (Some (header_row :: five_kept)) (Some CsvError)) w0 =
    (Raise CsvError, w_five_kept) /\
  console (read_tsv_files_in_directory_and_write_output service_two_exons
             fs_reader_fails "in" "out" w0) = [ErrorOccurred CsvError].
Proof.
  split; [| split]; vm_compute; reflexivity.
Qed.

(* ===================================================================== *)
(** ** Genes without exons *)
(* ===================================================================== *)

(** C5.  When the locator returns [None] or an empty list for the gene
    of a report file, the file is skipped: nothing is written for it, a
    skip notice is printed, the progress bar advances, the loop goes on
    with the next file, and if the remaining files raise nothing the run
    ends with its completion message. *)
Theorem gene_without_exons_is_skipped (service : Service) (fs : FileSystem)
  (names done later : list DirEntry) (entry : DirEntry)
  (directory_path output_file_path : string) (w w1 : World) :
  listdir fs = Some names ->
  output_writable fs = true ->
  listdir_again fs = Some (done ++ entry :: later) ->
  process_files service done (started names w) = (Ok tt, w1) ->
  endswith (file_name entry) ".tsv" = true ->
  (fst (fetch_exon_data service (splitext_root (file_name entry)) w1) = Ok None \/
   fst (fetch_exon_data service (splitext_root (file_name entry)) w1) = Ok (Some [])) ->
  let ws := skipped (splitext_root (file_name entry)) (file_name entry) w1 in
  process_file service entry w1 = (Ok tt, ws) /\
  output ws = output w1 /\
  console ws =
    console w1 ++ [SkipNotice (splitext_root (file_name entry)) (file_name entry)] /\
  progress ws = S (progress w1) /\
  process_files service (entry :: later) w1 = process_files service later ws /\
  (forall w2 : World,
      process_files service later ws = (Ok tt, w2) ->
      read_tsv_files_in_directory_and_write_output service fs
        directory_path output_file_path w =
      printed (Completed directory_path output_file_path) w2).
Proof.
  intros Hls Hout Hagain Hdone Hext Hfetch ws.
  pose proof (process_file_skipped service entry w1 Hext Hfetch) as Hskip.
  fold ws in Hskip.
  assert (Hloop : process_files service (entry :: later) w1 =
                  process_files service later ws).
  { cbn [process_files]. unfold bind. rewrite Hskip. reflexivity. }
  split; [assumption |].
  split; [reflexivity |].
  split; [reflexivity |].
  split; [reflexivity |].
  split; [assumption |].
  intros w2 Hlater.
  unfold read_tsv_files_in_directory_and_write_output.
  rewrite (try_block_run service fs _ _ directory_path output_file_path w
             Hls Hout Hagain).
  rewrite process_files_app, Hdone, Hloop, Hlater. reflexivity.
Qed.

(** The end-to-end example of the specification, with the unknown gene
    first: geneB gets a notice and no block, geneA gets its block, and
    the run completes. *)
Lemma gene_without_exons_is_skipped_witness :
  process_file service_AB
    (mkDirEntry "geneB.tsv" (Some [header_row; guide "AAAACCC" "10" "0.1"]) None)
    (started [mkDirEntry "geneB.tsv" (Some [header_row; guide "AAAACCC" "10" "0.1"]) None;
              mkDirEntry "notes.txt" None None;
              mkDirEntry "geneA.tsv" (Some [header_row; guide "AAAACCC" "10" "0.1"]) None]
       w0) =
    (Ok tt, mkWorld ["geneB"] [] [SkipNotice "geneB" "geneB.tsv"] 2 1) /\
  read_tsv_files_in_directory_and_write_output service_AB fs_AB "in" "out" w0 =
    mkWorld ["geneB"; "geneA"; "geneA"]
      [("geneA" ++ nl)%string; ("=====" ++ nl)%string; format_line "AAAA" "0.1" 1; nl]
      [SkipNotice "geneB" "geneB.tsv"; Completed "in" "out"] 2 2.
Proof.
  unshelve epose proof
    (gene_without_exons_is_skipped service_AB fs_AB
       [mkDirEntry "geneB.tsv" (Some [header_row; guide "AAAACCC" "10" "0.1"]) None;
        mkDirEntry "notes.txt" None None;
        mkDirEntry "geneA.tsv" (Some [header_row; guide "AAAACCC" "10" "0.1"]) None]
       []
       [mkDirEntry "notes.txt" None None;
        mkDirEntry "geneA.tsv" (Some [header_row; guide "AAAACCC" "10" "0.1"]) None]
       (mkDirEntry "geneB.tsv" (Some [header_row; guide "AAAACCC" "10" "0.1"]) None)
       "in" "out" w0 (mkWorld [] [] [] 2 0) _ _ _ _ _ _) as H;
    try (vm_compute; reflexivity).
  - left. vm_compute. reflexivity.
  - cbv zeta in H.
    destruct H as (Hfile & _ & _ & _ & _ & Hrun).
    split.
    + exact Hfile.
    + apply (Hrun (mkWorld ["geneB"; "geneA"; "geneA"]
                     [("geneA" ++ nl)%string; ("=====" ++ nl)%string;
                      format_line "AAAA" "0.1" 1; nl]
                     [SkipNotice "geneB" "geneB.tsv"] 2 2)).
      vm_compute. reflexivity.
Defined.

(* ===================================================================== *)
(** ** Rows that abort the run *)
(* ===================================================================== *)

Lemma block_output_extends (service : Service) (gene_name : string)
  (exon_threshold : Z) (pre : list Row) (fetched : option (list Exon))
  (count : nat) (w1 w2 w3 : World) :
  fetch_exon_data service gene_name w1 = (Ok fetched, w2) ->
  scan_rows service gene_name exon_threshold pre None 0 (block_start gene_name w2) =
    (Ok count, w3) ->
  exists more : list string, output w3 = output w1 ++ more.
Proof.
  intros Hfetch Hscan.
  rewrite fetch_exon_data_run in Hfetch. injection Hfetch as _ <-.
  destruct (scan_rows_general service gene_name exon_threshold pre None 0
              (block_start gene_name (sent gene_name w1)) (Nat.le_0_l 5))
    as (picked & kept & Hout & _).
  rewrite Hscan in Hout. cbn [snd] in Hout.
  exists ([(gene_name ++ nl)%string;
           (repeat_string "=" (String.length gene_name) ++ nl)%string] ++ kept).
  rewrite Hout. unfold block_start, wrote, sent.
  cbn [requests output console total progress].
  rewrite <- !app_assoc. reflexivity.
Qed.

(** C6.  When the scan reaches a row whose coordinate field has no
    colon, or has the [chr:pos] shape with a position that is not a
    number, the run aborts with ValueError: the final world is the world
    in which that row was reached plus the one line
    "An error occurred: ...", so no later row and no later file is
    processed, no completion message is printed, and everything written
    for the files before (and for this file so far) stays in the output. *)
Theorem malformed_coordinate_aborts_run (service : Service) (fs : FileSystem)
  (names done later : list DirEntry) (name : string) (header bad : Row)
  (pre post : list Row) (ending : option Exn)
  (directory_path output_file_path : string)
  (exon : Exon) (others : list Exon) (exon_threshold : Z) (count : nat)
  (genomic_coordinates : string) (w w1 w2 w3 : World) :
  listdir fs = Some names ->
  output_writable fs = true ->
  listdir_again fs =
    Some (done ++ mkDirEntry name (Some (header :: pre ++ bad :: post)) ending :: later) ->
  process_files service done (started names w) = (Ok tt, w1) ->
  endswith name ".tsv" = true ->
  fetch_exon_data service (splitext_root name) w1 = (Ok (Some (exon :: others)), w2) ->
  calculate_exon_threshold (Z.of_nat (List.length (exon :: others))) = Ok exon_threshold ->
  scan_rows service (splitext_root name) exon_threshold pre None 0
    (block_start (splitext_root name) w2) = (Ok count, w3) ->
  count < 5 ->
  nth_error bad 2 = Some genomic_coordinates ->
  malformed genomic_coordinates ->
  read_tsv_files_in_directory_and_write_output service fs
    directory_path output_file_path w = printed (ErrorOccurred ValueError) w3 /\
  exists more : list string, output w3 = output w1 ++ more.
Proof.
  intros Hls Hout Hagain Hdone Hext Hfetch Hthr Hscan Hlt Hfield Hbad.
  split.
  - apply (run_aborts service fs names done later _ directory_path output_file_path
             w w1 w3 ValueError Hls Hout Hagain Hdone).
    apply (process_file_aborts_at_row service name header pre post ending bad exon others
             exon_threshold count w1 w2 w3 ValueError Hext Hfetch Hthr Hscan Hlt).
    + intros ->. discriminate Hfield.
    + apply (parse_row_malformed bad genomic_coordinates Hfield Hbad).
  - apply (block_output_extends service (splitext_root name) exon_threshold pre
             (Some (exon :: others)) count w1 w2 w3 Hfetch Hscan).
Qed.

(** geneA.tsv is processed, geneC.tsv raises at its second data row,
    geneD.tsv is never opened: once for a field without colon
    ("chr5-30"), once for a position that is no number ("chr5:ten"). *)
Lemma malformed_coordinate_aborts_run_witness :
  read_tsv_files_in_directory_and_write_output service_two_exons fs_three
    "in" "out" w0 =
  mkWorld ["geneA"; "geneA"; "geneC"; "geneC"]
    [("geneA" ++ nl)%string; ("=====" ++ nl)%string; format_line "AAAA" "0.1" 1; nl;
     ("geneC" ++ nl)%string; ("=====" ++ nl)%string; format_line "CCCC" "0.2" 1]
    [ErrorOccurred ValueError] 3 1 /\
  read_tsv_files_in_directory_and_write_output service_two_exons fs_ten
    "in" "out" w0 =
  mkWorld ["geneA"; "geneA"; "geneC"; "geneC"]
    [("geneA" ++ nl)%string; ("=====" ++ nl)%string; format_line "AAAA" "0.1" 1; nl;
     ("geneC" ++ nl)%string; ("=====" ++ nl)%string; format_line "CCCC" "0.2" 1]
    [ErrorOccurred ValueError] 3 1.
Proof.
  split.
  - refine (proj1 (malformed_coordinate_aborts_run service_two_exons fs_three dir_three
             [mkDirEntry "geneA.tsv" (Some [header_row; guide "AAAACCC" "10" "0.1"]) None]
             [mkDirEntry "geneD.tsv" (Some [header_row; guide "ACACGGG" "50" "0.5"]) None]
             "geneC.tsv" header_row ["g"; "GGGGTTT"; "chr5-30"; "0.3"]
             [guide "CCCCGGG" "20" "0.2"] [guide "TTTTAAA" "40" "0.4"] None
             "in" "out" (mkExon 1 100) [mkExon 150 200] 1 1 "chr5-30" w0
             w_geneA_done (sent "geneC" w_geneA_done) w_geneC_one_kept
             _ _ _ _ _ _ _ _ _ _ _)); try (vm_compute; reflexivity).
    + lia.
    + left. reflexivity.
  - refine (proj1 (malformed_coordinate_aborts_run service_two_exons fs_ten dir_ten
             [mkDirEntry "geneA.tsv" (Some [header_row; guide "AAAACCC" "10" "0.1"]) None]
             [mkDirEntry "geneD.tsv" (Some [header_row; guide "ACACGGG" "50" "0.5"]) None]
             "geneC.tsv" header_row ["g"; "GGGGTTT"; "chr5:ten"; "0.3"]
             [guide "CCCCGGG" "20" "0.2"] [guide "TTTTAAA" "40" "0.4"] None
             "in" "out" (mkExon 1 100) [mkExon 150 200] 1 1 "chr5:ten" w0
             w_geneA_done (sent "geneC" w_geneA_done) w_geneC_one_kept
             _ _ _ _ _ _ _ _ _ _ _)); try (vm_compute; reflexivity).
    + lia.
    + right. exists "chr5", "ten".
      split; [reflexivity |]. split; [reflexivity |]. split; [reflexivity |].
      intros H. apply int_of_str_numeric in H as [z Hz].
      vm_compute in Hz. discriminate Hz.
Defined.

Lemma ten_not_numeric : ~ numeric "ten".
Proof.
  intros H. apply int_of_str_numeric in H as [z Hz].
  vm_compute in Hz. discriminate Hz.
Qed.

Example non_numeric_position_is_malformed : malformed "chr5:ten".
Proof.
  right. exists "chr5", "ten".
  split; [reflexivity |]. split; [reflexivity |]. split; [reflexivity |].
  apply ten_not_numeric.
Qed.

Lemma scan_rows_blank (service : Service) (gene_name : string)
  (exon_threshold : Z) (rest : list Row) (ending : option Exn)
  (count : nat) (w : World) :
  count < 5 \/ ending = None \/ rest <> [] ->
  scan_rows service gene_name exon_threshold ([] :: rest) ending count w =
  scan_rows service gene_name exon_threshold rest ending count w.
Proof.
  intros Hcase. cbn [scan_rows].
  destruct (5 <=? count) eqn:Hfull; [| reflexivity].
  destruct rest as [| row rest']; cbn [scan_rows]; [| rewrite Hfull; reflexivity].
  apply Nat.leb_le in Hfull.
  destruct Hcase as [Hlt | [-> | Hne]]; [lia | reflexivity | congruence].
Qed.

(** C10.  When the scan reaches a non-empty row with fewer than 3
    fields, [row[2]] raises IndexError and the run aborts: the final
    world is the world in which the row was reached plus the one error
    line.  A blank row (the empty list) is passed over with no effect at
    all; a non-empty row is never passed over: its processing either
    raises or sends a request. *)
Theorem short_row_aborts_run (service : Service) (fs : FileSystem)
  (names done later : list DirEntry) (name : string) (header bad : Row)
  (pre post : list Row) (ending : option Exn)
  (directory_path output_file_path : string)
  (exon : Exon) (others : list Exon) (exon_threshold : Z) (count : nat)
  (w w1 w2 w3 : World) :
  listdir fs = Some names ->
  output_writable fs = true ->
  listdir_again fs =
    Some (done ++ mkDirEntry name (Some (header :: pre ++ bad :: post)) ending :: later) ->
  process_files service done (started names w) = (Ok tt, w1) ->
  endswith name ".tsv" = true ->
  fetch_exon_data service (splitext_root name) w1 = (Ok (Some (exon :: others)), w2) ->
  calculate_exon_threshold (Z.of_nat (List.length (exon :: others))) = Ok exon_threshold ->
  scan_rows service (splitext_root name) exon_threshold pre None 0
    (block_start (splitext_root name) w2) = (Ok count, w3) ->
  count < 5 ->
  bad <> [] ->
  List.length bad < 3 ->
  read_tsv_files_in_directory_and_write_output service fs
    directory_path output_file_path w = printed (ErrorOccurred IndexError) w3 /\
  (forall (rest : list Row) (c : nat) (w' : World),
      c < 5 \/ ending = None \/ rest <> [] ->
      scan_rows service (splitext_root name) exon_threshold ([] :: rest) ending c w' =
      scan_rows service (splitext_root name) exon_threshold rest ending c w') /\
  (forall (row : Row) (c : nat) (w' : World),
      row <> [] ->
      (exists e : Exn,
          fst (process_row service (splitext_root name) exon_threshold row c w') = Raise e) \/
      requests (snd (process_row service (splitext_root name) exon_threshold row c w')) =
        requests w' ++ [splitext_root name]).
Proof.
  intros Hls Hout Hagain Hdone Hext Hfetch Hthr Hscan Hlt Hne Hshort.
  split; [| split].
  - apply (run_aborts service fs names done later _ directory_path output_file_path
             w w1 w3 IndexError Hls Hout Hagain Hdone).
    apply (process_file_aborts_at_row service name header pre post ending bad exon others
             exon_threshold count w1 w2 w3 IndexError Hext Hfetch Hthr Hscan Hlt Hne).
    apply (parse_row_short bad Hshort).
  - intros rest c w' Hcase. apply scan_rows_blank. assumption.
  - intros row c w' _.
    rewrite process_row_run.
    destruct (parse_row row) as [[[chromosome label] position] | e];
      [| left; exists e; reflexivity].
    destruct (decode _) as [fetched | e]; [| left; exists e; reflexivity].
    right. destruct (keep_line _ _ _ _); reflexivity.
Qed.

(** geneC.tsv: a blank row is passed over, one row is kept, then the
    two-field row raises; geneD.tsv is never opened. *)
Lemma short_row_aborts_run_witness :
  read_tsv_files_in_directory_and_write_output service_two_exons fs_short
    "in" "out" w0 =
  mkWorld ["geneA"; "geneA"; "geneC"; "geneC"]
    [("geneA" ++ nl)%string; ("=====" ++ nl)%string; format_line "AAAA" "0.1" 1; nl;
     ("geneC" ++ nl)%string; ("=====" ++ nl)%string; format_line "CCCC" "0.2" 1]
    [ErrorOccurred IndexError] 3 1.
Proof.
  refine (proj1 (short_row_aborts_run service_two_exons fs_short dir_short
           [mkDirEntry "geneA.tsv" (Some [header_row; guide "AAAACCC" "10" "0.1"]) None]
           [mkDirEntry "geneD.tsv" (Some [header_row; guide "ACACGGG" "50" "0.5"]) None]
           "geneC.tsv" header_row ["g"; "GGGGTTT"]
           [[]; guide "CCCCGGG" "20" "0.2"] [guide "TTTTAAA" "40" "0.4"] None
           "in" "out" (mkExon 1 100) [mkExon 150 200] 1 1 w0
           w_geneA_done (sent "geneC" w_geneA_done) w_geneC_one_kept
           _ _ _ _ _ _ _ _ _ _ _)); try (vm_compute; reflexivity).
  - lia.
  - discriminate.
Defined.

(* ===================================================================== *)
(** ** The locator: flattening, missing keys, empty answers *)
(* ===================================================================== *)

Lemma append_exons_app (l1 l2 : list ExonJson) :
  append_exons (l1 ++ l2) =
  match append_exons l1 with
  | Ok r1 =>
      match append_exons l2 with
      | Ok r2 => Ok (r1 ++ r2)
      | Raise e => Raise e
      end
  | Raise e => Raise e
  end.
Proof.
  induction l1 as [| j l1' IH]; cbn [append_exons app].
  - destruct (append_exons l2); reflexivity.
  - destruct (json_start j); [| reflexivity].
    destruct (json_end j); [| reflexivity].
    rewrite IH.
    destruct (append_exons l1'); [| reflexivity].
    destruct (append_exons l2); reflexivity.
Qed.

(** The two nested loops are one pass over the flattened objects. *)
Lemma flatten_transcripts_flat (ts : list TranscriptJson) :
  flatten_transcripts ts = append_exons (List.concat (map json_exons ts)).
Proof.
  induction ts as [| t ts' IH]; cbn [flatten_transcripts map List.concat].
  - reflexivity.
  - rewrite append_exons_app. fold (json_exons t). rewrite IH. reflexivity.
Qed.

Lemma append_exons_carries (l : list ExonJson) (exons : list Exon) :
  Forall2 carries l exons -> append_exons l = Ok exons.
Proof.
  induction 1 as [| j e l' exons' [Hs He] _ IH]; cbn [append_exons].
  - reflexivity.
  - rewrite Hs, He, IH. destruct e; reflexivity.
Qed.

Lemma append_exons_complete (l : list ExonJson) :
  Forall complete l -> exists exons, append_exons l = Ok exons.
Proof.
  induction 1 as [| j l' [e [Hs He]] _ [exons IH]]; cbn [append_exons].
  - exists []. reflexivity.
  - rewrite Hs, He, IH. eexists. reflexivity.
Qed.

Lemma decode_json (data : GeneJson) :
  json_error data = false ->
  decode (Json data) =
  match append_exons (json_flat data) with
  | Ok exons => Ok (Some exons)
  | Raise e => Raise e
  end.
Proof.
  intros Herr. unfold decode, json_flat, json_transcripts.
  rewrite Herr, flatten_transcripts_flat. reflexivity.
Qed.

(** X1.  A body without error key whose exon objects all have both keys
    gives the exon list in the order of the body, transcripts first and
    exons within a transcript next: nothing is sorted, merged or dropped
    (an exon shared by two transcripts appears twice). *)
Theorem fetch_exon_data_flattens (service : Service) (gene_name : string)
  (w : World) (data : GeneJson) (exons : list Exon) :
  service (List.length (requests w)) gene_name = Json data ->
  json_error data = false ->
  Forall2 carries (json_flat data) exons ->
  fetch_exon_data service gene_name w = (Ok (Some exons), sent gene_name w).
Proof.
  intros Hanswer Herr Hcarries.
  rewrite fetch_exon_data_run, Hanswer, (decode_json data Herr).
  rewrite (append_exons_carries _ _ Hcarries). reflexivity.
Qed.

Lemma fetch_exon_data_flattens_witness :
  fetch_exon_data service_overlap "rx3" w0 =
  (Ok (Some [mkExon 10 20; mkExon 25 30; mkExon 15 18]), sent "rx3" w0).
Proof.
  refine (fetch_exon_data_flattens service_overlap "rx3" w0
            (mkGeneJson false
               (Some [mkTranscriptJson
                        (Some [mkExonJson (Some 10%Z) (Some 20%Z);
                               mkExonJson (Some 25%Z) (Some 30%Z)]);
                      mkTranscriptJson
                        (Some [mkExonJson (Some 15%Z) (Some 18%Z)])]))
            [mkExon 10 20; mkExon 25 30; mkExon 15 18] _ _ _).
  - reflexivity.
  - reflexivity.
  - repeat constructor.
Defined.

(** X2.  When an exon object lacks a key, the fetch raises KeyError for
    the first such object in body order, naming 'start' when that key is
    missing and 'end' otherwise; the request has been sent. *)
Theorem fetch_exon_data_missing_key (service : Service) (gene_name : string)
  (w : World) (data : GeneJson) (before after : list ExonJson) (bad : ExonJson) :
  service (List.length (requests w)) gene_name = Json data ->
  json_error data = false ->
  json_flat data = before ++ bad :: after ->
  Forall complete before ->
  json_start bad = None \/ json_end bad = None ->
  fetch_exon_data service gene_name w =
  (Raise (KeyError (match json_start bad with Some _ => "end" | None => "start" end)),
   sent gene_name w).
Proof.
  intros Hanswer Herr Hflat Hbefore Hbad.
  rewrite fetch_exon_data_run, Hanswer, (decode_json data Herr), Hflat.
  rewrite append_exons_app.
  destruct (append_exons_complete before Hbefore) as [exons ->].
  cbn [append_exons].
  destruct (json_start bad) as [s |]; [| reflexivity].
  destruct Hbad as [Hs | He]; [discriminate Hs |].
  rewrite He. reflexivity.
Qed.

Lemma fetch_exon_data_missing_key_witness :
  fetch_exon_data
    (fun _ _ => Json (mkGeneJson false
                        (Some [mkTranscriptJson (Some [mkExonJson (Some 1%Z) (Some 9%Z)]);
                               mkTranscriptJson (Some [mkExonJson (Some 20%Z) None;
                                                       mkExonJson None None])])))
    "rx3" w0 =
  (Raise (KeyError "end"), sent "rx3" w0).
Proof.
  refine (fetch_exon_data_missing_key _ "rx3" w0
            (mkGeneJson false
               (Some [mkTranscriptJson (Some [mkExonJson (Some 1%Z) (Some 9%Z)]);
                      mkTranscriptJson (Some [mkExonJson (Some 20%Z) None;
                                              mkExonJson None None])]))
            [mkExonJson (Some 1%Z) (Some 9%Z)] [mkExonJson None None]
            (mkExonJson (Some 20%Z) None) _ _ _ _ _).
  - reflexivity.
  - reflexivity.
  - reflexivity.
  - repeat constructor. exists (mkExon 1 9). split; reflexivity.
  - right. reflexivity.
Defined.

(** X3.  A body with an error key is "no exons" whatever else it holds
    (its exon objects are not even read), and a body without error key
    gives the empty list when the Transcript key is missing or no
    transcript has an exon; in all three cases a report file of that gene
    is skipped. *)
Theorem answers_without_exons_skip (service : Service) (entry : DirEntry)
  (w : World) (data : GeneJson) :
  endswith (file_name entry) ".tsv" = true ->
  service (List.length (requests w)) (splitext_root (file_name entry)) = Json data ->
  json_error data = true \/ json_Transcript data = None \/ json_flat data = [] ->
  process_file service entry w =
  (Ok tt, skipped (splitext_root (file_name entry)) (file_name entry) w).
Proof.
  intros Hext Hanswer Hcase.
  apply (process_file_skipped service entry w Hext).
  rewrite fetch_exon_data_run, Hanswer. cbn [fst].
  destruct (json_error data) eqn:Herr.
  - left. unfold decode. rewrite Herr. reflexivity.
  - right. rewrite (decode_json data Herr).
    assert (Hflat : json_flat data = []).
    { destruct Hcase as [H | [H | H]]; [discriminate H | | exact H].
      unfold json_flat, json_transcripts. rewrite H. reflexivity. }
    rewrite Hflat. reflexivity.
Qed.

Lemma answers_without_exons_skip_witness :
  process_file
    (fun _ _ => Json (mkGeneJson true
                        (Some [mkTranscriptJson (Some [mkExonJson None None])])))
    (mkDirEntry "rx3.tsv" (Some [header_row]) None) w0 =
  (Ok tt, skipped "rx3" "rx3.tsv" w0).
Proof.
  refine (answers_without_exons_skip _ (mkDirEntry "rx3.tsv" (Some [header_row]) None) w0
            (mkGeneJson true (Some [mkTranscriptJson (Some [mkExonJson None None])]))
            _ _ _).
  - reflexivity.
  - reflexivity.
  - left. reflexivity.
Defined.

(* ===================================================================== *)
(** ** More on the threshold *)
(* ===================================================================== *)

Lemma calculate_exon_threshold_int (n : Z) :
  (0 <= n <= 2 ^ 53)%Z ->
  calculate_exon_threshold n =
  Ok (if (n <=? 5)%Z then (n + 1) / 2 else n / 2)%Z.
Proof.
  intros H. unfold calculate_exon_threshold.
  rewrite (float_of_int_exact n H).
  destruct (n <=? 5)%Z.
  - rewrite Qceiling_half. reflexivity.
  - rewrite Qfloor_half. reflexivity.
Qed.

(** X4.  For a gene with at least one exon the threshold lies between 1
    and the exon count, so a guide in the first exon always passes the
    threshold test, and with two or more exons the threshold is below
    the count, so a guide in the last exon never does. *)
Theorem threshold_between_one_and_count (exon_count : Z) :
  (1 <= exon_count <= 2 ^ 53)%Z ->
  exists t : Z,
    calculate_exon_threshold exon_count = Ok t /\
    (1 <= t <= exon_count)%Z /\
    (2 <= exon_count -> t < exon_count)%Z.
Proof.
  intros H.
  rewrite (calculate_exon_threshold_int exon_count ltac:(lia)).
  eexists. split; [reflexivity |].
  destruct (exon_count <=? 5)%Z eqn:Hsmall.
  - split; [| intros H2]; Z.div_mod_to_equations; lia.
  - apply Z.leb_gt in Hsmall.
    split; [| intros H2]; Z.div_mod_to_equations; lia.
Qed.

Lemma threshold_between_one_and_count_witness :
  exists t : Z,
    calculate_exon_threshold 2 = Ok t /\ (1 <= t <= 2)%Z /\ (2 <= 2 -> t < 2)%Z.
Proof.
  apply (threshold_between_one_and_count 2). lia.
Defined.

(** X5.  The threshold never decreases when the exon count grows: the
    change from rounding up to rounding down above 5 exons makes the
    threshold stay at 3 for 5, 6 and 7 exons but never makes it drop. *)
Theorem threshold_monotone (n m : Z) :
  (0 <= n <= m)%Z -> (m <= 2 ^ 53)%Z ->
  exists tn tm : Z,
    calculate_exon_threshold n = Ok tn /\
    calculate_exon_threshold m = Ok tm /\
    (tn <= tm)%Z.
Proof.
  intros Hnm Hm.
  rewrite (calculate_exon_threshold_int n ltac:(lia)).
  rewrite (calculate_exon_threshold_int m ltac:(lia)).
  do 2 eexists. split; [reflexivity |]. split; [reflexivity |].
  destruct (n <=? 5)%Z eqn:Hn; destruct (m <=? 5)%Z eqn:Hm5;
    try apply Z.leb_le in Hn; try apply Z.leb_gt in Hn;
    try apply Z.leb_le in Hm5; try apply Z.leb_gt in Hm5;
    Z.div_mod_to_equations; lia.
Qed.

Lemma threshold_monotone_witness :
  exists tn tm : Z,
    calculate_exon_threshold 5 = Ok tn /\
    calculate_exon_threshold 6 = Ok tm /\
    (tn <= tm)%Z.
Proof.
  apply (threshold_monotone 5 6); lia.
Defined.

Lemma round_half_even_lower (a e : Z) :
  (0 <= a)%Z -> (0 < e)%Z -> (a / 2 ^ e * 2 ^ e <= round_half_even a e)%Z.
Proof.
  intros Ha He. unfold round_half_even.
  assert (Hpow : (0 < 2 ^ e)%Z) by (apply Z.pow_pos_nonneg; lia).
  destruct (a mod 2 ^ e <? 2 ^ (e - 1))%Z; [lia |].
  destruct (2 ^ (e - 1) <? a mod 2 ^ e)%Z; [nia |].
  destruct (Z.even (a / 2 ^ e)); nia.
Qed.

(** X6.  An exon count of 2^1024 or more cannot be converted to a float:
    the function raises OverflowError instead of returning a threshold. *)
Theorem calculate_exon_threshold_overflow (exon_count : Z) :
  (2 ^ 1024 <= exon_count)%Z ->
  calculate_exon_threshold exon_count = Raise OverflowError.
Proof.
  intros Hbig.
  assert (Hone : (0 < 2 ^ 1024)%Z) by (apply Z.pow_pos_nonneg; lia).
  assert (Hpos : (0 < exon_count)%Z) by lia.
  assert (Hlog : (1024 <= Z.log2 exon_count)%Z).
  { rewrite <- (Z.log2_pow2 1024) by lia. apply Z.log2_le_mono. assumption. }
  destruct (Z.log2_spec exon_count Hpos) as [Hlow _].
  unfold calculate_exon_threshold, float_of_int.
  rewrite (Z.abs_eq exon_count) by lia.
  set (e := (Z.log2 exon_count - 52)%Z) in *.
  assert (He : (0 < e)%Z) by (unfold e; lia).
  assert (Hle : (e <=? 0)%Z = false) by (apply Z.leb_gt; assumption).
  rewrite Hle.
  assert (Hpe : (0 < 2 ^ e)%Z) by (apply Z.pow_pos_nonneg; lia).
  assert (Hsplit : (2 ^ Z.log2 exon_count = 2 ^ 52 * 2 ^ e)%Z).
  { rewrite <- Z.pow_add_r by lia. f_equal. unfold e. lia. }
  assert (Hq : (2 ^ 52 <= exon_count / 2 ^ e)%Z).
  { apply Z.div_le_lower_bound; [assumption |]. rewrite Z.mul_comm, <- Hsplit.
    assumption. }
  assert (Hm : (2 ^ 1024 <= round_half_even exon_count e)%Z).
  { apply Z.le_trans with (exon_count / 2 ^ e * 2 ^ e)%Z;
      [| apply round_half_even_lower; lia].
    apply Z.le_trans with (2 ^ Z.log2 exon_count)%Z.
    - apply Z.pow_le_mono_r; lia.
    - rewrite Hsplit. apply Z.mul_le_mono_nonneg_r; lia. }
  apply Z.leb_le in Hm. rewrite Hm. reflexivity.
Qed.

Lemma calculate_exon_threshold_overflow_witness :
  calculate_exon_threshold (2 ^ 1024) = Raise OverflowError.
Proof.
  apply (calculate_exon_threshold_overflow (2 ^ 1024)). apply Z.le_refl.
Defined.

Example largest_convertible_count :
  calculate_exon_threshold (2 ^ 1024 - 2 ^ 970 - 1) = Ok (2 ^ 1023 - 2 ^ 970)%Z.
Proof. vm_compute. reflexivity. Qed.

(* ===================================================================== *)
(** ** Exon numbers across transcripts *)
(* ===================================================================== *)

Lemma find_exon_loop_shift (exons : list Exon) (coordinate : Z) (d : nat) :
  forall index : nat,
    find_exon_loop (d + index) exons coordinate =
    option_map (fun i => d + i) (find_exon_loop index exons coordinate).
Proof.
  induction exons as [| exon rest IH]; intros index; cbn [find_exon_loop].
  - reflexivity.
  - destruct (contains exon coordinate); [reflexivity |].
    rewrite <- IH. f_equal. lia.
Qed.

Lemma find_exon_loop_app (l1 l2 : list Exon) (coordinate : Z) :
  forall index : nat,
    find_exon_loop index (l1 ++ l2) coordinate =
    match find_exon_loop index l1 coordinate with
    | Some i => Some i
    | None => find_exon_loop (List.length l1 + index) l2 coordinate
    end.
Proof.
  induction l1 as [| exon rest IH]; intros index; cbn [find_exon_loop app List.length].
  - reflexivity.
  - destruct (contains exon coordinate); [reflexivity |].
    rewrite IH. destruct (find_exon_loop (S index) rest coordinate); [reflexivity |].
    f_equal. lia.
Qed.

(** X7.  Exon numbers run through the flattened list: when the locator
    returns the exons of one transcript followed by those of the others,
    a coordinate inside an exon of the first transcript gets that exon's
    number there, and any other coordinate gets its number among the
    remaining exons plus the size of the first transcript. *)
Theorem find_exon_across_transcripts (service : Service) (chromosome : string)
  (coordinate : Z) (gene_name : string) (w w' : World) (first others : list Exon) :
  fetch_exon_data service gene_name w = (Ok (Some (first ++ others)), w') ->
  find_exon service chromosome coordinate gene_name w =
  (Ok (match find_exon_loop 1 first coordinate with
       | Some i => Some i
       | None =>
           option_map (fun i => List.length first + i)
             (find_exon_loop 1 others coordinate)
       end), w').
Proof.
  intros Hfetch.
  unfold find_exon, bind. rewrite Hfetch.
  rewrite <- find_exon_loop_shift, <- find_exon_loop_app.
  destruct (first ++ others); reflexivity.
Qed.

(** In [{10,20},{25,30}] + [{15,18},{40,50}] the coordinate 45 is in
    exon 2 of the second transcript and gets the number 2 + 2. *)
Lemma find_exon_across_transcripts_witness :
  find_exon (fun _ _ => gene_json [[(10, 20)%Z; (25, 30)%Z]; [(15, 18)%Z; (40, 50)%Z]])
    "7" 45 "rx3" w0 =
  (Ok (Some 4), sent "rx3" w0).
Proof.
  refine (find_exon_across_transcripts _ "7" 45 "rx3" w0 (sent "rx3" w0)
            [mkExon 10 20; mkExon 25 30] [mkExon 15 18; mkExon 40 50] _).
  reflexivity.
Defined.

(* ===================================================================== *)
(** ** Which rows raise, and what a kept line reports *)
(* ===================================================================== *)

Lemma split_nonempty (sep : ascii) (s : string) : split sep s <> [].
Proof.
  destruct s as [| c s']; cbn [split]; [discriminate |].
  destruct (Ascii.eqb c sep); [discriminate |].
  destruct (split sep s'); discriminate.
Qed.

Lemma split_one_inv (s p : string) :
  split ":" s = [p] -> s = p /\ has_colon p = false.
Proof.
  revert p. induction s as [| c s' IH]; intros p; cbn [split].
  - intros [= <-]. split; reflexivity.
  - destruct (Ascii.eqb c ":") eqn:Hc.
    + intros [= _ Hrest]. destruct (split_nonempty _ _ Hrest).
    + destruct (split ":" s') as [| h t] eqn:Hs;
        [destruct (split_nonempty _ _ Hs) |].
      intros [= <- ->].
      destruct (IH h eq_refl) as [-> Hh].
      split; [reflexivity |]. cbn [has_colon]. rewrite Hc, Hh. reflexivity.
Qed.

Lemma split_two_inv (s c p : string) :
  split ":" s = [c; p] ->
  s = (c ++ ":" ++ p)%string /\ has_colon c = false /\ has_colon p = false.
Proof.
  revert c. induction s as [| a s' IH]; intros c; cbn [split].
  - discriminate.
  - destruct (Ascii.eqb a ":") eqn:Ha.
    + intros [= <- Hrest].
      apply Ascii.eqb_eq in Ha. subst a.
      destruct (split_one_inv _ _ Hrest) as [-> Hp].
      repeat split; assumption.
    + destruct (split ":" s') as [| h t] eqn:Hs;
        [destruct (split_nonempty _ _ Hs) |].
      intros [= <- ->].
      destruct (IH h eq_refl) as (-> & Hh & Hp).
      repeat split; [| assumption].
      cbn [has_colon]. rewrite Ha, Hh. reflexivity.
Qed.

Lemma split_well_shaped (genomic_coordinates : string) :
  well_shaped genomic_coordinates <->
  exists c p : string,
    split ":" genomic_coordinates = [c; p] /\ numeric p.
Proof.
  split.
  - intros (c & p & -> & Hc & Hp & Hnum).
    exists c, p. split; [| assumption].
    rewrite (split_at_colon _ _ Hc), (split_no_colon _ Hp). reflexivity.
  - intros (c & p & Hsplit & Hnum).
    destruct (split_two_inv _ _ _ Hsplit) as (-> & Hc & Hp).
    exists c, p. repeat split; try assumption; apply Hnum.
Qed.

(** The rows on which the pure part of [process_row] raises. *)
Lemma parse_row_raises_shape (row : Row) (e : Exn) :
  parse_row row = Raise e <->
  (List.length row < 3 /\ e = IndexError) \/
  (exists genomic_coordinates : string,
      nth_error row 2 = Some genomic_coordinates /\
      ~ well_shaped genomic_coordinates /\
      e = ValueError).
Proof.
  split.
  - unfold parse_row, index.
    destruct (nth_error row 2) as [coord |] eqn:Hfield.
    + intros Hraise. right. exists coord. split; [reflexivity |].
      assert (Hrow1 : nth_error row 1 <> None).
      { intros Hnone. apply nth_error_None in Hnone.
        assert (Hsome : nth_error row 2 <> None) by congruence.
        apply nth_error_Some in Hsome. lia. }
      destruct (split ":" coord) as [| c [| p [| x t]]] eqn:Hsplit.
      * injection Hraise as <-. split; [| reflexivity].
        intros Hshape. apply split_well_shaped in Hshape.
        destruct Hshape as (c' & p' & H & _). congruence.
      * injection Hraise as <-. split; [| reflexivity].
        intros Hshape. apply split_well_shaped in Hshape.
        destruct Hshape as (c' & p' & H & _). congruence.
      * destruct (int_of_str p) as [z | e'] eqn:Hint.
        -- destruct (nth_error row 1); [discriminate | congruence].
        -- injection Hraise as <-.
           split; [| apply (int_of_str_raises p e' Hint)].
           intros Hshape. apply split_well_shaped in Hshape.
           destruct Hshape as (c' & p' & H & Hnum).
           rewrite Hsplit in H. injection H as <- <-.
           apply int_of_str_numeric in Hnum as [z Hz]. congruence.
      * injection Hraise as <-. split; [| reflexivity].
        intros Hshape. apply split_well_shaped in Hshape.
        destruct Hshape as (c' & p' & H & _). congruence.
    + intros [= <-]. left. split; [| reflexivity].
      apply nth_error_None in Hfield. lia.
  - intros [[Hshort ->] | (coord & Hfield & Hshape & ->)].
    + apply parse_row_short. assumption.
    + unfold parse_row, index. rewrite Hfield.
      destruct (split ":" coord) as [| c [| p [| x t]]] eqn:Hsplit;
        try reflexivity.
      destruct (int_of_str p) as [z | e'] eqn:Hint.
      * exfalso. apply Hshape. apply split_well_shaped.
        exists c, p. split; [assumption |].
        apply int_of_str_numeric. exists z. assumption.
      * rewrite (int_of_str_raises p e' Hint). reflexivity.
Qed.

Lemma sent_differs (gene_name : string) (w w' : World) :
  requests w' = requests w ++ [gene_name] -> w' <> w.
Proof.
  intros Hreq Heq. subst w'.
  apply (f_equal (@List.length string)) in Hreq.
  rewrite length_app in Hreq. cbn in Hreq. lia.
Qed.

(** X8.  Processing a row raises before any lookup is sent exactly when
    the row has fewer than 3 fields (IndexError) or its third field is
    not of the form text-without-colon, colon, numeric position
    (ValueError), a numeric position being an integer literal
    (whitespace, optional sign, digits with single underscores between
    them, whitespace) of at most 4300 digits; reading the second field
    never raises. *)
Theorem process_row_raises_before_lookup_iff (service : Service)
  (gene_name : string) (exon_threshold : Z) (row : Row) (count : nat)
  (w : World) (e : Exn) :
  process_row service gene_name exon_threshold row count w = (Raise e, w) <->
  (List.length row < 3 /\ e = IndexError) \/
  (exists genomic_coordinates : string,
      nth_error row 2 = Some genomic_coordinates /\
      ~ well_shaped genomic_coordinates /\
      e = ValueError).
Proof.
  rewrite <- parse_row_raises_shape, process_row_run.
  destruct (parse_row row) as [[[chromosome label] position] | e'].
  - split; [| discriminate].
    intros Hrun. exfalso.
    destruct (decode _) as [fetched | e''].
    + destruct (keep_line _ _ _ _) as [line |]; injection Hrun as _ Hw.
      * apply (sent_differs gene_name w (wrote line (sent gene_name w)) eq_refl Hw).
      * apply (sent_differs gene_name w (sent gene_name w) eq_refl Hw).
    + injection Hrun as _ Hw.
      apply (sent_differs gene_name w (sent gene_name w) eq_refl Hw).
  - split; intros [= ->]; reflexivity.
Qed.

(** A position of 4301 digits is not numeric, and neither is one with
    two colons in the field; a no-break space after the digits is. *)
Lemma process_row_raises_before_lookup_iff_witness :
  process_row service_two_exons "geneA" 1
    ["g"; "AAAACCC"; "chr5:10:20"; "0.1"] 0 w0 = (Raise ValueError, w0).
Proof.
  apply (proj2 (process_row_raises_before_lookup_iff service_two_exons "geneA" 1
                  ["g"; "AAAACCC"; "chr5:10:20"; "0.1"] 0 w0 ValueError)).
  right. exists "chr5:10:20". split; [reflexivity |]. split; [| reflexivity].
  intros Hshape. apply split_well_shaped in Hshape.
  destruct Hshape as (c & p & H & _). discriminate H.
Defined.

Example no_break_space_is_whitespace :
  int_of_str (String (ascii_of_nat 160) "10" ++ String (ascii_of_nat 133) "") = Ok 10%Z.
Proof. vm_compute. reflexivity. Qed.

Example digit_cap :
  (exists z : Z, int_of_str (repeat_string "1" 4300) = Ok z) /\
  int_of_str (repeat_string "1" 4301) = Raise ValueError /\
  (exists z : Z, int_of_str ("+" ++ repeat_string "0_" 4298 ++ "00") = Ok z).
Proof.
  repeat apply conj.
  - eexists. vm_compute. reflexivity.
  - vm_compute. reflexivity.
  - eexists. vm_compute. reflexivity.
Qed.

Lemma classify_positive (fetched : option (list Exon)) (coordinate : Z) (n : nat) :
  classify fetched coordinate = Some n -> 1 <= n.
Proof.
  destruct fetched as [exons |]; [| discriminate].
  cbn [classify]. intros H.
  pose proof (find_exon_loop_spec exons coordinate 1) as Hspec.
  rewrite H in Hspec. destruct Hspec as (before & exon & after & _ & -> & _).
  lia.
Qed.

Lemma keep_line_numbered (exon_threshold : Z) (row : Row) (label : string)
  (fetched : option (list Exon)) (position : Z) (line : string) :
  keep_line exon_threshold row label (classify fetched position) = Some line ->
  numbered exon_threshold line.
Proof.
  unfold keep_line.
  destruct (classify fetched position) as [n |] eqn:Hclass; [| discriminate].
  destruct (Z.of_nat n <=? exon_threshold)%Z eqn:Hle; [| discriminate].
  intros [= <-].
  exists label, (last row EmptyString), n.
  split; [reflexivity |].
  split; [apply (classify_positive _ _ _ Hclass) | apply Z.leb_le; assumption].
Qed.

Section Effects.

Variable service : Service.

(** Everything a scan does to the world: requests for the gene, at most
    one per row, and numbered lines, at most [5 - count] of them. *)
Lemma scan_rows_effects (gene_name : string) (exon_threshold : Z)
  (rows : list Row) (ending : option Exn) :
  forall (count : nat) (w : World),
    count <= 5 ->
    exists (k : nat) (kept : list string),
      requests (snd (scan_rows service gene_name exon_threshold rows ending count w)) =
        requests w ++ repeat gene_name k /\
      k <= List.length rows /\
      output (snd (scan_rows service gene_name exon_threshold rows ending count w)) =
        output w ++ kept /\
      Forall (numbered exon_threshold) kept /\
      count + List.length kept <= 5 /\
      console (snd (scan_rows service gene_name exon_threshold rows ending count w)) =
        console w /\
      total (snd (scan_rows service gene_name exon_threshold rows ending count w)) =
        total w /\
      progress (snd (scan_rows service gene_name exon_threshold rows ending count w)) =
        progress w.
Proof.
  induction rows as [| row rows' IH]; intros count w Hc.
  - exists 0, []. destruct ending; cbn; rewrite !app_nil_r;
      (repeat apply conj; try reflexivity; try lia; constructor).
  - cbn [scan_rows].
    destruct (5 <=? count) eqn:Hfull.
    + exists 0, []. cbn. rewrite !app_nil_r.
      repeat apply conj; try reflexivity; try lia. constructor.
    + apply Nat.leb_gt in Hfull.
      destruct row as [| field fields].
      * destruct (IH count w Hc) as (k & kept & H1 & H2 & H3 & H4 & H5 & H6).
        exists k, kept. cbn [List.length].
        repeat apply conj; try assumption; try apply H6. lia.
      * unfold bind. rewrite process_row_run.
        destruct (parse_row (field :: fields))
          as [[[chromosome second_cell] position] | e].
        2:{ exists 0, []. cbn. rewrite !app_nil_r.
            repeat apply conj; try reflexivity; try lia. constructor. }
        destruct (decode _) as [fetched | e].
        2:{ exists 1, []. cbn. rewrite !app_nil_r.
            repeat apply conj; try reflexivity; try lia. constructor. }
        destruct (keep_line _ _ _ _) as [line |] eqn:Hkeep.
        -- destruct (IH (S count) (wrote line (sent gene_name w)) ltac:(lia))
             as (k & kept & H1 & H2 & H3 & H4 & H5 & H6 & H7 & H8).
           exists (S k), (line :: kept).
           rewrite H1, H3, H6, H7, H8. cbn.
           rewrite <- !app_assoc. cbn.
           repeat apply conj; try reflexivity; try lia.
           constructor; [| assumption].
           apply (keep_line_numbered _ _ _ _ _ _ Hkeep).
        -- destruct (IH count (sent gene_name w) Hc)
             as (k & kept & H1 & H2 & H3 & H4 & H5 & H6 & H7 & H8).
           exists (S k), kept.
           rewrite H1, H3, H6, H7, H8. cbn.
           rewrite <- !app_assoc. cbn.
           repeat apply conj; try reflexivity; try assumption; try lia.
Qed.

(** [process_file] without the monad. *)
Lemma process_file_run (entry : DirEntry) (w : World) :
  process_file service entry w =
  if is_tsv entry then
    match decode (service (List.length (requests w)) (gene_of entry)) with
    | Raise e => (Raise e, sent (gene_of entry) w)
    | Ok (Some (exon :: others)) =>
        match calculate_exon_threshold (Z.of_nat (List.length (exon :: others))) with
        | Raise e => (Raise e, sent (gene_of entry) w)
        | Ok exon_threshold =>
            match tsv_rows entry with
            | None => (Raise OSError, sent (gene_of entry) w)
            | Some rows =>
                match rows, reader_error entry with
                | [], Some e => (Raise e, sent (gene_of entry) w)
                | _, _ =>
                    match scan_rows service (gene_of entry) exon_threshold (tl rows)
                            (reader_error entry) 0
                            (block_start (gene_of entry) (sent (gene_of entry) w)) with
                    | (Ok _, w') => (Ok tt, block_end w')
                    | (Raise e, w') => (Raise e, w')
                    end
                end
            end
        end
    | Ok _ => (Ok tt, skipped (gene_of entry) (file_name entry) w)
    end
  else (Ok tt, w).
Proof.
  unfold process_file, is_tsv, gene_of.
  destruct (endswith (file_name entry) ".tsv"); [| reflexivity].
  unfold bind at 1. rewrite fetch_exon_data_run.
  destruct (decode _) as [[[| exon others] |] | e]; try reflexivity.
  unfold bind at 1. unfold lift at 1.
  destruct (calculate_exon_threshold _) as [exon_threshold | e]; [| reflexivity].
  destruct (tsv_rows entry) as [rows |]; [| reflexivity].
  destruct rows as [| header data]; destruct (reader_error entry) as [e |];
    try reflexivity;
    unfold bind, write, pbar_update, block_start, block_end, wrote, advanced;
    cbn [requests output console total progress];
    destruct (scan_rows _ _ _ _ _ _ _) as [[c | e'] w']; reflexivity.
Qed.

End Effects.

(** X9.  Every line a scan writes reports an exon number between 1 and
    the threshold, whatever the service answers; in particular no line
    reports exon 0 or an exon beyond the early half. *)
Theorem kept_lines_within_threshold (service : Service) (gene_name : string)
  (exon_threshold : Z) (rows : list Row) (ending : option Exn) (w : World) :
  exists kept : list string,
    output (snd (scan_rows service gene_name exon_threshold rows ending 0 w)) =
      output w ++ kept /\
    Forall (numbered exon_threshold) kept.
Proof.
  destruct (scan_rows_effects service gene_name exon_threshold rows ending 0 w
              (Nat.le_0_l 5))
    as (k & kept & _ & _ & Hout & Hnum & _).
  exists kept. split; assumption.
Qed.

Example second_exon_beyond_threshold :
  output (snd (scan_rows service_two_exons "geneA" 1
                 [guide "AAAACCC" "160" "0.1"; guide "CCCCGGG" "20" "0.2"] None 0 w0)) =
  [format_line "CCCC" "0.2" 1].
Proof. vm_compute. reflexivity. Qed.

(* ===================================================================== *)
(** ** What a file and a run do to the world *)
(* ===================================================================== *)

Section FileEffects.

Variable service : Service.

Lemma process_file_effects (entry : DirEntry) (w : World) :
  exists (k : nat) (block : list string) (notices : list Message),
    requests (snd (process_file service entry w)) =
      requests w ++ repeat (gene_of entry) k /\
    (if is_tsv entry then 1 <= k <= 1 + List.length (data_rows entry) else k = 0) /\
    output (snd (process_file service entry w)) = output w ++ block /\
    console (snd (process_file service entry w)) = console w ++ notices /\
    Forall is_skip_notice notices /\
    total (snd (process_file service entry w)) = total w /\
    progress w <= progress (snd (process_file service entry w)) /\
    progress (snd (process_file service entry w)) <=
      progress w + (if is_tsv entry then 1 else 0) /\
    (fst (process_file service entry w) = Ok tt ->
     progress (snd (process_file service entry w)) =
       progress w + (if is_tsv entry then 1 else 0)).
Proof.
  rewrite process_file_run.
  destruct (is_tsv entry).
  2:{ exists 0, [], []. cbn. rewrite !app_nil_r.
      repeat apply conj; try reflexivity; try lia. constructor. }
  destruct (decode _) as [[[| exon others] |] | e].
  - exists 1, [], [SkipNotice (gene_of entry) (file_name entry)].
    cbn. rewrite !app_nil_r.
    repeat apply conj; try reflexivity; try lia.
    repeat constructor.
  - destruct (calculate_exon_threshold _) as [exon_threshold | e].
    2:{ exists 1, [], []. cbn. rewrite !app_nil_r.
        repeat apply conj; try reflexivity; try lia; try discriminate.
        constructor. }
    unfold data_rows.
    destruct (tsv_rows entry) as [rows |].
    2:{ exists 1, [], []. cbn. rewrite !app_nil_r.
        repeat apply conj; try reflexivity; try lia; try discriminate.
        constructor. }
    destruct rows as [| header data]; destruct (reader_error entry) as [e0 |].
    1:{ exists 1, [], []. cbn. rewrite !app_nil_r.
        repeat apply conj; try reflexivity; try lia; try discriminate.
        constructor. }
    all: match goal with
         | |- context [scan_rows service ?g ?t ?d ?en 0 ?w1] =>
             destruct (scan_rows_effects service g t d en 0 w1 (Nat.le_0_l 5))
               as (k & kept & H1 & H2 & H3 & H4 & H5 & H6 & H7 & H8)
         end;
      destruct (scan_rows _ _ _ _ _ _ _) as [[c | e] w'];
      cbn [fst snd] in *;
      [ exists (S k),
          ([(gene_of entry ++ nl)%string;
            (repeat_string "=" (String.length (gene_of entry)) ++ nl)%string]
             ++ kept ++ [nl]), [];
        unfold block_end, advanced, wrote;
        cbn [requests output console total progress];
        rewrite H1, H3, H6, H7, H8;
        unfold block_start, wrote, sent;
        cbn [requests output console total progress repeat];
        rewrite <- !app_assoc, !app_nil_r; cbn [app];
        repeat apply conj; try reflexivity; try lia; constructor
      | exists (S k),
          ([(gene_of entry ++ nl)%string;
            (repeat_string "=" (String.length (gene_of entry)) ++ nl)%string]
             ++ kept), [];
        rewrite H1, H3, H6, H7, H8;
        unfold block_start, wrote, sent;
        cbn [requests output console total progress repeat];
        rewrite <- !app_assoc, !app_nil_r; cbn [app];
        repeat apply conj; try reflexivity; try lia; try discriminate;
        constructor ].
  - exists 1, [], [SkipNotice (gene_of entry) (file_name entry)].
    cbn. rewrite !app_nil_r.
    repeat apply conj; try reflexivity; try lia.
    repeat constructor.
  - exists 1, [], []. cbn. rewrite !app_nil_r.
    repeat apply conj; try reflexivity; try lia; try discriminate.
    constructor.
Qed.

Lemma process_files_effects (entries : list DirEntry) :
  forall w : World,
    exists (reqs : list string) (block : list string) (notices : list Message),
      requests (snd (process_files service entries w)) = requests w ++ reqs /\
      Forall (fun g => In g (map gene_of (filter is_tsv entries))) reqs /\
      output (snd (process_files service entries w)) = output w ++ block /\
      console (snd (process_files service entries w)) = console w ++ notices /\
      Forall is_skip_notice notices /\
      total (snd (process_files service entries w)) = total w /\
      progress (snd (process_files service entries w)) <=
        progress w + List.length (filter is_tsv entries) /\
      (fst (process_files service entries w) = Ok tt ->
       progress (snd (process_files service entries w)) =
         progress w + List.length (filter is_tsv entries)).
Proof.
  induction entries as [| entry rest IH]; intros w.
  - exists [], [], []. cbn. rewrite !app_nil_r.
    repeat apply conj; try reflexivity; try lia; constructor.
  - cbn [process_files]. unfold bind.
    destruct (process_file_effects entry w)
      as (k & block & notices & H1 & H2 & H3 & H4 & H5 & H6 & H7 & H8 & H9).
    assert (Hreqs : Forall (fun g => In g (map gene_of (filter is_tsv (entry :: rest))))
                      (repeat (gene_of entry) k)).
    { cbn [filter]. destruct (is_tsv entry).
      - apply Forall_forall. intros g Hg. apply repeat_spec in Hg. subst g.
        left. reflexivity.
      - subst k. constructor. }
    destruct (process_file service entry w) as [[[] | e] w1]; cbn [fst snd] in *.
    + destruct (IH w1) as (reqs & block' & notices' & I1 & I2 & I3 & I4 & I5 & I6 & I7 & I8).
      exists (repeat (gene_of entry) k ++ reqs), (block ++ block'), (notices ++ notices').
      rewrite I1, I3, I4, I6, H1, H3, H4, H6, <- !app_assoc.
      specialize (H9 eq_refl).
      repeat apply conj; try reflexivity.
      * apply Forall_app. split; [assumption |].
        eapply Forall_impl; [| exact I2].
        intros g Hg. cbn [filter]. destruct (is_tsv entry); [right |]; assumption.
      * apply Forall_app. split; assumption.
      * cbn [filter]. destruct (is_tsv entry); cbn [List.length]; lia.
      * intros Hok. specialize (I8 Hok).
        cbn [filter]. destruct (is_tsv entry); cbn [List.length]; lia.
    + exists (repeat (gene_of entry) k), block, notices.
      repeat apply conj; try assumption; try discriminate.
      cbn [filter]. destruct (is_tsv entry); cbn [List.length]; lia.
Qed.

End FileEffects.

(** X10.  Processing a report file sends one lookup for the file's gene
    and at most one more per data row, all for that gene and in a row,
    and sends nothing at all for a directory entry that is not a report
    file. *)
Theorem requests_of_a_file (service : Service) (entry : DirEntry) (w : World) :
  exists k : nat,
    requests (snd (process_file service entry w)) =
      requests w ++ repeat (gene_of entry) k /\
    (if is_tsv entry then 1 <= k <= 1 + List.length (data_rows entry) else k = 0).
Proof.
  destruct (process_file_effects service entry w) as (k & _ & _ & H1 & H2 & _).
  exists k. split; assumption.
Qed.

(** X11.  The progress bar against its total.  The total is the number
    of report files in the first listing of the directory (line 74); the
    bar is updated once for every report file of the second listing
    (line 81) that is processed, whether the file got a block or was
    skipped.  So the bar never passes the number of report files of the
    second listing, and a run that reaches its completion message ends
    with exactly that many updates.  When the two listings hold the same
    number of report files, the bar never passes its total and is full
    on completion; nothing in the code makes them equal. *)
Theorem progress_bar_of_a_run (service : Service) (fs : FileSystem)
  (names entries : list DirEntry) (directory_path output_file_path : string)
  (w : World) :
  listdir fs = Some names ->
  output_writable fs = true ->
  listdir_again fs = Some entries ->
  let final := read_tsv_files_in_directory_and_write_output service fs
                 directory_path output_file_path w in
  total final = List.length (filter is_tsv names) /\
  progress final <= List.length (filter is_tsv entries) /\
  (fst (process_files service entries (started names w)) = Ok tt ->
   progress final = List.length (filter is_tsv entries)) /\
  (List.length (filter is_tsv entries) = List.length (filter is_tsv names) ->
   progress final <= total final /\
   (fst (process_files service entries (started names w)) = Ok tt ->
    progress final = total final)).
Proof.
  intros Hls Hout Hagain final.
  assert (Htotal : total final = List.length (filter is_tsv names) /\
                   progress final <= List.length (filter is_tsv entries) /\
                   (fst (process_files service entries (started names w)) = Ok tt ->
                    progress final = List.length (filter is_tsv entries))).
  { subst final.
    unfold read_tsv_files_in_directory_and_write_output.
    rewrite (try_block_run service fs names entries directory_path output_file_path w
               Hls Hout Hagain).
    destruct (process_files_effects service entries (started names w))
      as (reqs & block & notices & _ & _ & _ & _ & _ & Htot & Hle & Heq).
    destruct (process_files service entries (started names w)) as [[[] | e] w'];
      cbn [fst snd] in *; unfold printed, print; cbn [snd total progress];
      rewrite Htot; cbn [started total progress] in *; unfold is_tsv in *;
      repeat apply conj; try reflexivity; try lia.
    - intros _. apply (Heq eq_refl).
    - discriminate. }
  destruct Htotal as (Htot & Hle & Heq).
  refine (conj Htot (conj Hle (conj Heq _))).
  intros Hsame. rewrite Htot, <- Hsame.
  split; [exact Hle | exact Heq].
Qed.

(** A directory that does not change: the bar ends at 2 of 2.  The
    output file inside the directory: the bar ends at 2 of 1. *)
Lemma progress_bar_of_a_run_witness :
  (let final := read_tsv_files_in_directory_and_write_output service_AB fs_AB
                  "in" "out" w0 in
   total final = 2 /\ progress final <= total final /\ progress final = total final) /\
  (let final := read_tsv_files_in_directory_and_write_output service_AB
                  fs_output_inside "in" "in/out.tsv" w0 in
   total final = 1 /\ progress final = 2).
Proof.
  split.
  - destruct (progress_bar_of_a_run service_AB fs_AB dir_AB dir_AB
                "in" "out" w0 eq_refl eq_refl eq_refl)
      as (Htotal & _ & _ & Hsame).
    destruct (Hsame eq_refl) as (Hle & Hfull).
    repeat apply conj.
    + exact Htotal.
    + exact Hle.
    + apply Hfull. vm_compute. reflexivity.
  - destruct (progress_bar_of_a_run service_AB fs_output_inside
                [mkDirEntry "geneA.tsv" (Some [header_row; guide "AAAACCC" "10" "0.1"]) None]
                [mkDirEntry "geneA.tsv" (Some [header_row; guide "AAAACCC" "10" "0.1"]) None;
                 mkDirEntry "out.tsv" (Some []) None]
                "in" "in/out.tsv" w0 eq_refl eq_refl eq_refl)
      as (Htotal & _ & Hfull & _).
    split.
    + exact Htotal.
    + apply Hfull. vm_compute. reflexivity.
Defined.

(** X12.  Whatever the directory holds and however the run ends, what it
    prints is a sequence of skip notices followed by exactly one final
    line, the completion message or the error message, never both and
    never neither. *)
Theorem console_of_a_run (service : Service) (fs : FileSystem)
  (directory_path output_file_path : string) (w : World) :
  exists (notices : list Message) (final : Message),
    console (read_tsv_files_in_directory_and_write_output service fs
               directory_path output_file_path w) =
      console w ++ notices ++ [final] /\
    Forall is_skip_notice notices /\
    is_final directory_path output_file_path final.
Proof.
  unfold read_tsv_files_in_directory_and_write_output.
  destruct (listdir fs) as [names |] eqn:Hls.
  - destruct (output_writable fs) eqn:Hout.
    + destruct (listdir_again fs) as [entries |] eqn:Hagain.
      2:{ exists [], (ErrorOccurred OSError).
          unfold try_block, os_listdir, open_output, tqdm, bind, ret, raise.
          rewrite Hls, Hout, Hagain. cbn.
          repeat apply conj; [reflexivity | constructor | right; eexists; reflexivity]. }
      rewrite (try_block_run service fs names entries directory_path output_file_path w
                 Hls Hout Hagain).
      destruct (process_files_effects service entries (started names w))
        as (reqs & block & notices & _ & _ & _ & Hcon & Hskip & _).
      destruct (process_files service entries (started names w)) as [[[] | e] w'];
        cbn [fst snd] in *.
      * exists notices, (Completed directory_path output_file_path).
        unfold printed. cbn [console]. rewrite Hcon, <- app_assoc.
        repeat apply conj; [reflexivity | assumption | left; reflexivity].
      * exists notices, (ErrorOccurred e).
        cbn [print snd console]. rewrite Hcon, <- app_assoc.
        repeat apply conj; [reflexivity | assumption | right; exists e; reflexivity].
    + exists [], (ErrorOccurred OSError).
      unfold try_block, os_listdir, open_output, bind, ret.
      rewrite Hls, Hout. cbn.
      repeat apply conj; [reflexivity | constructor | right; eexists; reflexivity].
  - exists [], (ErrorOccurred OSError).
    unfold try_block, os_listdir, bind, raise. rewrite Hls. cbn.
    repeat apply conj; [reflexivity | constructor | right; eexists; reflexivity].
Qed.

(* ===================================================================== *)
(** ** The directory listing and the output file *)
(* ===================================================================== *)

Lemma filter_idem {A : Type} (f : A -> bool) (l : list A) :
  filter f (filter f l) = filter f l.
Proof.
  induction l as [| a l' IH]; cbn [filter]; [reflexivity |].
  destruct (f a) eqn:Hf; [| assumption].
  cbn [filter]. rewrite Hf, IH. reflexivity.
Qed.

Lemma process_files_filter (service : Service) (entries : list DirEntry) :
  forall w : World,
    process_files service entries w =
    process_files service (filter is_tsv entries) w.
Proof.
  induction entries as [| entry rest IH]; intros w; cbn [filter process_files].
  - reflexivity.
  - destruct (is_tsv entry) eqn:Htsv; cbn [process_files]; unfold bind.
    + destruct (process_file service entry w) as [[[] | e] w1];
        [apply IH | reflexivity].
    + rewrite process_file_run, Htsv. apply IH.
Qed.

(** X13.  Directory entries whose name does not end in ".tsv" play no
    part: the run over a directory is the run over its report files
    alone, in the same order (same requests, same output, same console,
    same progress total), in the first listing as in the second. *)
Theorem other_entries_ignored (service : Service) (fs : FileSystem)
  (names entries : list DirEntry) (directory_path output_file_path : string)
  (w : World) :
  listdir fs = Some names ->
  output_writable fs = true ->
  listdir_again fs = Some entries ->
  read_tsv_files_in_directory_and_write_output service fs
    directory_path output_file_path w =
  read_tsv_files_in_directory_and_write_output service
    (mkFileSystem (Some (filter is_tsv names)) true (Some (filter is_tsv entries)))
    directory_path output_file_path w.
Proof.
  intros Hls Hout Hagain.
  unfold read_tsv_files_in_directory_and_write_output.
  rewrite (try_block_run service fs names entries directory_path output_file_path w
             Hls Hout Hagain).
  rewrite (try_block_run service
             (mkFileSystem (Some (filter is_tsv names)) true
                (Some (filter is_tsv entries)))
             (filter is_tsv names) (filter is_tsv entries)
             directory_path output_file_path w eq_refl eq_refl eq_refl).
  assert (Hstart : started (filter is_tsv names) w = started names w).
  { unfold started. f_equal.
    change (fun entry : DirEntry => endswith (file_name entry) ".tsv") with is_tsv.
    rewrite filter_idem. reflexivity. }
  rewrite Hstart, <- process_files_filter. reflexivity.
Qed.

Lemma other_entries_ignored_witness :
  read_tsv_files_in_directory_and_write_output service_AB fs_AB "in" "out" w0 =
  read_tsv_files_in_directory_and_write_output service_AB
    (stable_directory
       [mkDirEntry "geneB.tsv" (Some [header_row; guide "AAAACCC" "10" "0.1"]) None;
        mkDirEntry "geneA.tsv" (Some [header_row; guide "AAAACCC" "10" "0.1"]) None])
    "in" "out" w0.
Proof.
  exact (other_entries_ignored service_AB fs_AB dir_AB dir_AB
           "in" "out" w0 eq_refl eq_refl eq_refl).
Defined.

(** X14.  When the directory cannot be listed or the output file cannot
    be opened for writing, the run prints the error line and does
    nothing else: no request is sent, the output file keeps its content
    and the progress bar is not touched. *)
Theorem setup_failure_leaves_world (service : Service) (fs : FileSystem)
  (directory_path output_file_path : string) (w : World) :
  listdir fs = None \/ output_writable fs = false ->
  read_tsv_files_in_directory_and_write_output service fs
    directory_path output_file_path w =
  printed (ErrorOccurred OSError) w.
Proof.
  intros Hfail.
  unfold read_tsv_files_in_directory_and_write_output, try_block, os_listdir,
    open_output, bind, ret, raise.
  destruct (listdir fs) as [names |].
  - destruct Hfail as [Hls | Hout]; [discriminate Hls |].
    rewrite Hout. reflexivity.
  - reflexivity.
Qed.

Lemma setup_failure_leaves_world_witness :
  read_tsv_files_in_directory_and_write_output service_AB
    (mkFileSystem None true None) "in" "out"
    (mkWorld [] ["left by an earlier run"] [] 0 0) =
  mkWorld [] ["left by an earlier run"] [ErrorOccurred OSError] 0 0.
Proof.
  exact (setup_failure_leaves_world service_AB (mkFileSystem None true None) "in" "out"
           (mkWorld [] ["left by an earlier run"] [] 0 0) (or_introl eq_refl)).
Defined.

(** X15.  Once the directory is listed and the output file opened, the
    file is overwritten: the result of the run, its output included,
    does not depend on what the file held before, even when the run
    aborts in the first report file. *)
Theorem output_file_overwritten (service : Service) (fs : FileSystem)
  (entries : list DirEntry) (directory_path output_file_path : string)
  (w : World) (previous : list string) :
  listdir fs = Some entries ->
  output_writable fs = true ->
  read_tsv_files_in_directory_and_write_output service fs
    directory_path output_file_path (with_output previous w) =
  read_tsv_files_in_directory_and_write_output service fs
    directory_path output_file_path w.
Proof.
  intros Hls Hout.
  unfold read_tsv_files_in_directory_and_write_output, try_block, os_listdir,
    open_output, tqdm, bind, ret, raise, with_output.
  rewrite Hls, Hout. cbn [requests output console total progress].
  reflexivity.
Qed.

Lemma output_file_overwritten_witness :
  output (read_tsv_files_in_directory_and_write_output service_AB
            (stable_directory [mkDirEntry "geneB.tsv" (Some [header_row]) None])
            "in" "out" (with_output ["left by an earlier run"] w0)) = [].
Proof.
  rewrite (output_file_overwritten service_AB
             (stable_directory [mkDirEntry "geneB.tsv" (Some [header_row]) None])
             [mkDirEntry "geneB.tsv" (Some [header_row]) None]
             "in" "out" w0 ["left by an earlier run"] eq_refl eq_refl).
  vm_compute. reflexivity.
Defined.

(* ===================================================================== *)
(** ** Failures of the service and of the report file *)
(* ===================================================================== *)

(** X16.  When the service answers the lookup of a report file's gene
    with a failure status, the run aborts with HTTPError: the request
    has been sent, nothing is written for that file, what the earlier
    files wrote stays, and the later files are not processed. *)
Theorem lookup_failure_aborts_run (service : Service) (fs : FileSystem)
  (names done later : list DirEntry) (entry : DirEntry)
  (directory_path output_file_path : string) (w w1 : World) :
  listdir fs = Some names ->
  output_writable fs = true ->
  listdir_again fs = Some (done ++ entry :: later) ->
  process_files service done (started names w) = (Ok tt, w1) ->
  is_tsv entry = true ->
  service (List.length (requests w1)) (gene_of entry) = NotOk ->
  read_tsv_files_in_directory_and_write_output service fs
    directory_path output_file_path w =
  printed (ErrorOccurred HTTPError) (sent (gene_of entry) w1).
Proof.
  intros Hls Hout Hagain Hdone Htsv Hanswer.
  apply (run_aborts service fs names done later entry directory_path output_file_path
           w w1 _ HTTPError Hls Hout Hagain Hdone).
  rewrite process_file_run, Htsv, Hanswer. reflexivity.
Qed.

Lemma lookup_failure_aborts_run_witness :
  read_tsv_files_in_directory_and_write_output
    (fun k gene => if String.eqb gene "geneC" then NotOk else service_two_exons k gene)
    fs_three "in" "out" w0 =
  mkWorld ["geneA"; "geneA"; "geneC"]
    [("geneA" ++ nl)%string; ("=====" ++ nl)%string; format_line "AAAA" "0.1" 1; nl]
    [ErrorOccurred HTTPError] 3 1.
Proof.
  refine (lookup_failure_aborts_run _ fs_three dir_three
            [mkDirEntry "geneA.tsv" (Some [header_row; guide "AAAACCC" "10" "0.1"]) None]
            [mkDirEntry "geneD.tsv" (Some [header_row; guide "ACACGGG" "50" "0.5"]) None]
            (mkDirEntry "geneC.tsv"
               (Some [header_row; guide "CCCCGGG" "20" "0.2";
                      ["g"; "GGGGTTT"; "chr5-30"; "0.3"];
                      guide "TTTTAAA" "40" "0.4"]) None)
            "in" "out" w0 w_geneA_done _ _ _ _ _ _); vm_compute; reflexivity.
Defined.

(** X17.  A report file that cannot be opened aborts the run with
    OSError only when its gene has exons, and then after the lookup and
    before any header is written; when the gene has no exons the file is
    skipped without being opened. *)
Theorem unreadable_report_file (service : Service) (fs : FileSystem)
  (names done later : list DirEntry) (entry : DirEntry)
  (directory_path output_file_path : string) (w w1 w2 : World)
  (fetched : option (list Exon)) :
  listdir fs = Some names ->
  output_writable fs = true ->
  listdir_again fs = Some (done ++ entry :: later) ->
  process_files service done (started names w) = (Ok tt, w1) ->
  is_tsv entry = true ->
  tsv_rows entry = None ->
  fetch_exon_data service (gene_of entry) w1 = (Ok fetched, w2) ->
  match fetched with
  | Some (exon :: others) =>
      forall exon_threshold : Z,
        calculate_exon_threshold (Z.of_nat (List.length (exon :: others))) =
          Ok exon_threshold ->
        read_tsv_files_in_directory_and_write_output service fs
          directory_path output_file_path w =
        printed (ErrorOccurred OSError) w2 /\
        output w2 = output w1
  | _ =>
      process_file service entry w1 =
      (Ok tt, skipped (gene_of entry) (file_name entry) w1)
  end.
Proof.
  intros Hls Hout Hagain Hdone Htsv Hrows Hfetch.
  rewrite fetch_exon_data_run in Hfetch. injection Hfetch as Hdecode <-.
  destruct fetched as [[| exon others] |].
  - rewrite process_file_run, Htsv, Hdecode. reflexivity.
  - intros exon_threshold Hthr. split; [| reflexivity].
    apply (run_aborts service fs names done later entry directory_path
             output_file_path w w1 _ OSError Hls Hout Hagain Hdone).
    rewrite process_file_run, Htsv, Hdecode, Hthr, Hrows. reflexivity.
  - rewrite process_file_run, Htsv, Hdecode. reflexivity.
Qed.

(** notes.tsv cannot be opened: with service_AB its gene is unknown and
    the run completes; with exons for every gene the run aborts. *)
Lemma unreadable_report_file_witness :
  read_tsv_files_in_directory_and_write_output service_two_exons
    (stable_directory [mkDirEntry "notes.tsv" None None]) "in" "out" w0 =
    mkWorld ["notes"] [] [ErrorOccurred OSError] 1 0 /\
  process_file service_AB (mkDirEntry "notes.tsv" None None) (mkWorld [] [] [] 1 0) =
    (Ok tt, skipped "notes" "notes.tsv" (mkWorld [] [] [] 1 0)).
Proof.
  split.
  - refine (proj1 (unreadable_report_file service_two_exons
              (stable_directory [mkDirEntry "notes.tsv" None None])
              [mkDirEntry "notes.tsv" None None]
              [] [] (mkDirEntry "notes.tsv" None None) "in" "out" w0
              (mkWorld [] [] [] 1 0) (sent "notes" (mkWorld [] [] [] 1 0))
              (Some [mkExon 1 100; mkExon 150 200])
              _ _ _ _ _ _ _ 1%Z _)); vm_compute; reflexivity.
  - refine (unreadable_report_file service_AB
              (stable_directory [mkDirEntry "notes.tsv" None None])
              [mkDirEntry "notes.tsv" None None]
              [] [] (mkDirEntry "notes.tsv" None None) "in" "out"
              w0 (mkWorld [] [] [] 1 0) (sent "notes" (mkWorld [] [] [] 1 0)) None
              _ _ _ _ _ _ _); vm_compute; reflexivity.
Defined.

Lemma process_file_aborts_in_row (service : Service) (name : string)
  (header : Row) (pre post : list Row) (ending : option Exn) (bad : Row)
  (exon : Exon) (others : list Exon) (exon_threshold : Z) (count : nat)
  (w1 w2 w3 w4 : World) (e : Exn) :
  endswith name ".tsv" = true ->
  fetch_exon_data service (splitext_root name) w1 = (Ok (Some (exon :: others)), w2) ->
  calculate_exon_threshold (Z.of_nat (List.length (exon :: others))) = Ok exon_threshold ->
  scan_rows service (splitext_root name) exon_threshold pre None 0
    (block_start (splitext_root name) w2) = (Ok count, w3) ->
  count < 5 ->
  bad <> [] ->
  process_row service (splitext_root name) exon_threshold bad count w3 = (Raise e, w4) ->
  process_file service (mkDirEntry name (Some (header :: pre ++ bad :: post)) ending) w1 =
  (Raise e, w4).
Proof.
  intros Hext Hfetch Hthr Hscan Hlt Hne Hrow.
  rewrite (process_file_found service name header _ ending exon others
             exon_threshold w1 w2 Hext Hfetch Hthr).
  rewrite (scan_rows_app service _ _ pre (bad :: post) ending 0 count _ w3 Hscan Hlt).
  cbn [scan_rows].
  apply Nat.leb_gt in Hlt. rewrite Hlt.
  destruct bad as [| field fields]; [congruence |].
  unfold bind. rewrite Hrow. reflexivity.
Qed.

(** X18.  The classifier's own lookup can fail in the middle of a file:
    when the scan reaches a row whose fields parse and the service
    answers that row's request with a failure status, the run aborts
    with HTTPError; the block of the file is left open (header and the
    lines kept so far, no closing blank line) and nothing further is
    processed. *)
Theorem lookup_failure_inside_scan (service : Service) (fs : FileSystem)
  (names done later : list DirEntry) (name : string) (header bad : Row)
  (pre post : list Row) (ending : option Exn)
  (directory_path output_file_path : string)
  (exon : Exon) (others : list Exon) (exon_threshold : Z) (count : nat)
  (chromosome label : string) (position : Z) (w w1 w2 w3 : World) :
  listdir fs = Some names ->
  output_writable fs = true ->
  listdir_again fs =
    Some (done ++ mkDirEntry name (Some (header :: pre ++ bad :: post)) ending :: later) ->
  process_files service done (started names w) = (Ok tt, w1) ->
  endswith name ".tsv" = true ->
  fetch_exon_data service (splitext_root name) w1 = (Ok (Some (exon :: others)), w2) ->
  calculate_exon_threshold (Z.of_nat (List.length (exon :: others))) = Ok exon_threshold ->
  scan_rows service (splitext_root name) exon_threshold pre None 0
    (block_start (splitext_root name) w2) = (Ok count, w3) ->
  count < 5 ->
  parse_row bad = Ok (chromosome, label, position) ->
  service (List.length (requests w3)) (splitext_root name) = NotOk ->
  read_tsv_files_in_directory_and_write_output service fs
    directory_path output_file_path w =
  printed (ErrorOccurred HTTPError) (sent (splitext_root name) w3).
Proof.
  intros Hls Hout Hagain Hdone Hext Hfetch Hthr Hscan Hlt Hparse Hanswer.
  apply (run_aborts service fs names done later _ directory_path output_file_path
           w w1 _ HTTPError Hls Hout Hagain Hdone).
  apply (process_file_aborts_in_row service name header pre post ending bad exon others
           exon_threshold count w1 w2 w3 _ HTTPError Hext Hfetch Hthr Hscan Hlt).
  - intros ->. discriminate Hparse.
  - rewrite process_row_run, Hparse, Hanswer. reflexivity.
Qed.

(** The service fails from its fourth request on: geneA.tsv is done,
    the header of geneC.tsv is written, its first row's lookup fails. *)
Lemma lookup_failure_inside_scan_witness :
  read_tsv_files_in_directory_and_write_output
    (fun k gene => if 3 <=? k then NotOk else service_two_exons k gene)
    fs_three "in" "out" w0 =
  mkWorld ["geneA"; "geneA"; "geneC"; "geneC"]
    [("geneA" ++ nl)%string; ("=====" ++ nl)%string; format_line "AAAA" "0.1" 1; nl;
     ("geneC" ++ nl)%string; ("=====" ++ nl)%string]
    [ErrorOccurred HTTPError] 3 1.
Proof.
  refine (lookup_failure_inside_scan _ fs_three dir_three
            [mkDirEntry "geneA.tsv" (Some [header_row; guide "AAAACCC" "10" "0.1"]) None]
            [mkDirEntry "geneD.tsv" (Some [header_row; guide "ACACGGG" "50" "0.5"]) None]
            "geneC.tsv" header_row (guide "CCCCGGG" "20" "0.2")
            [] [["g"; "GGGGTTT"; "chr5-30"; "0.3"]; guide "TTTTAAA" "40" "0.4"] None
            "in" "out" (mkExon 1 100) [mkExon 150 200] 1 0 "5" "CCCC" 20
            w0 w_geneA_done (sent "geneC" w_geneA_done)
            (block_start "geneC" (sent "geneC" w_geneA_done))
            _ _ _ _ _ _ _ _ _ _ _); try (vm_compute; reflexivity).
  lia.
Defined.

(* ===================================================================== *)
(** ** The gene name and the block of a file *)
(* ===================================================================== *)

Lemma length_append (a b : string) :
  String.length (a ++ b) = String.length a + String.length b.
Proof.
  induction a as [| c a' IH]; cbn [String.append String.length];
    [reflexivity | rewrite IH; reflexivity].
Qed.

Lemma substring_append_prefix (g s : string) :
  substring 0 (String.length g) (g ++ s) = g.
Proof.
  induction g as [| c g' IH]; cbn [String.append String.length substring].
  - destruct s; reflexivity.
  - rewrite IH. reflexivity.
Qed.

Lemma substring_append_skip (g s : string) (m : nat) :
  substring (String.length g) m (g ++ s) = substring 0 m s.
Proof.
  induction g as [| c g' IH]; cbn [String.append String.length substring];
    [reflexivity | assumption].
Qed.

Lemma rfind_dot_tsv (g : string) :
  rfind_dot (g ++ ".tsv") = Some (String.length g).
Proof.
  induction g as [| c g' IH]; cbn [String.append String.length rfind_dot].
  - reflexivity.
  - rewrite IH. reflexivity.
Qed.

Lemma length_repeat_string (c : ascii) (n : nat) :
  String.length (repeat_string (String c EmptyString) n) = n.
Proof.
  induction n as [| n' IH]; cbn [repeat_string String.append String.length];
    [reflexivity | rewrite IH; reflexivity].
Qed.

(** X19.  Every name of the form g.tsv is taken as a report file, and
    its gene name is g itself, case and inner dots kept, except when g is
    empty or made of dots only (".tsv", "..tsv"): such a name has no
    extension to strip and the whole file name becomes the gene name. *)
Theorem gene_name_of_report_file (g : string) :
  endswith (g ++ ".tsv") ".tsv" = true /\
  splitext_root (g ++ ".tsv") = if all_dots g then (g ++ ".tsv")%string else g.
Proof.
  split.
  - unfold endswith. rewrite length_append.
    replace (String.length g + String.length ".tsv" - String.length ".tsv")
      with (String.length g) by lia.
    rewrite substring_append_skip.
    apply andb_true_iff. split; [apply Nat.leb_le; lia | reflexivity].
  - unfold splitext_root.
    rewrite rfind_dot_tsv, substring_append_prefix.
    destruct (all_dots g); reflexivity.
Qed.

Example gene_name_keeps_case_and_dots :
  splitext_root "Rx3.v2.tsv" = "Rx3.v2" /\ splitext_root ".tsv" = ".tsv".
Proof. split; reflexivity. Qed.

(** X20.  What a file that is processed without an exception adds to
    the output, case by case.  A file that is no report file adds nothing.
    A report file whose gene has no exons (no transcript list, or an
    empty one) adds nothing.  A report file whose gene has exons adds
    exactly one block: the gene name, a line of "=" as long as the gene
    name, the lines written by the scan of its data rows (at most 5,
    each with an exon number between 1 and the threshold of the gene)
    and a closing blank line; the header, the underline and the blank
    line are written even when the file has no data row, and then they
    are the whole block. *)
Theorem block_of_a_file (service : Service) (entry : DirEntry) (w : World) :
  fst (process_file service entry w) = Ok tt ->
  (is_tsv entry = false ->
   output (snd (process_file service entry w)) = output w) /\
  (is_tsv entry = true ->
   decode (service (List.length (requests w)) (gene_of entry)) = Ok None \/
   decode (service (List.length (requests w)) (gene_of entry)) = Ok (Some []) ->
   output (snd (process_file service entry w)) = output w) /\
  (is_tsv entry = true ->
   forall (exon : Exon) (others : list Exon),
     decode (service (List.length (requests w)) (gene_of entry)) =
       Ok (Some (exon :: others)) ->
     exists (exon_threshold : Z) (rows : list Row) (kept : list string),
       calculate_exon_threshold (Z.of_nat (List.length (exon :: others))) =
         Ok exon_threshold /\
       tsv_rows entry = Some rows /\
       output (snd (scan_rows service (gene_of entry) exon_threshold (tl rows)
                      (reader_error entry) 0
                      (block_start (gene_of entry) (sent (gene_of entry) w)))) =
         output w
         ++ [(gene_of entry ++ nl)%string;
             (repeat_string "=" (String.length (gene_of entry)) ++ nl)%string]
         ++ kept /\
       output (snd (process_file service entry w)) =
         output w
         ++ [(gene_of entry ++ nl)%string;
             (repeat_string "=" (String.length (gene_of entry)) ++ nl)%string]
         ++ kept ++ [nl] /\
       String.length (repeat_string "=" (String.length (gene_of entry))) =
         String.length (gene_of entry) /\
       List.length kept <= 5 /\
       Forall (numbered exon_threshold) kept /\
       (tl rows = [] -> kept = [])).
Proof.
  intros Hok. rewrite process_file_run in *.
  split; [| split].
  - intros Hext. rewrite Hext. reflexivity.
  - intros Hext Hnone. rewrite Hext.
    destruct Hnone as [-> | ->]; reflexivity.
  - intros Hext exon others Hfetch.
    rewrite Hext, Hfetch in *.
    destruct (calculate_exon_threshold _) as [exon_threshold | e];
      [| discriminate Hok].
    destruct (tsv_rows entry) as [rows |]; [| discriminate Hok].
    exists exon_threshold, rows.
    destruct (scan_rows_effects service (gene_of entry) exon_threshold (tl rows)
                (reader_error entry) 0
                (block_start (gene_of entry) (sent (gene_of entry) w)) (Nat.le_0_l 5))
      as (k & kept & _ & _ & Hout & Hnum & Hlen & _).
    exists kept.
    assert (Hblock :
      output (block_start (gene_of entry) (sent (gene_of entry) w)) ++ kept =
      output w
      ++ [(gene_of entry ++ nl)%string;
          (repeat_string "=" (String.length (gene_of entry)) ++ nl)%string]
      ++ kept).
    { unfold block_start, wrote, sent. cbn [output].
      rewrite <- !app_assoc. reflexivity. }
    assert (Hempty : tl rows = [] -> kept = []).
    { intros Hnil. rewrite Hnil in Hout.
      apply (app_inv_head (output (block_start (gene_of entry) (sent (gene_of entry) w)))).
      rewrite app_nil_r, <- Hout.
      destruct (reader_error entry); reflexivity. }
    assert (Hfile :
      output (snd (match rows, reader_error entry with
                   | [], Some e => (Raise e, sent (gene_of entry) w)
                   | _, _ =>
                       match scan_rows service (gene_of entry) exon_threshold (tl rows)
                               (reader_error entry) 0
                               (block_start (gene_of entry) (sent (gene_of entry) w)) with
                       | (Ok _, w') => (Ok tt, block_end w')
                       | (Raise e, w') => (Raise e, w')
                       end
                   end)) =
      output w
      ++ [(gene_of entry ++ nl)%string;
          (repeat_string "=" (String.length (gene_of entry)) ++ nl)%string]
      ++ kept ++ [nl]).
    { clear Hblock Hempty.
      destruct rows as [| header data]; destruct (reader_error entry) as [e0 |];
        try discriminate Hok;
        destruct (scan_rows _ _ _ _ _ _ _) as [[c | e] w'];
        try discriminate Hok;
        cbn [fst snd] in *;
        unfold block_end, advanced, wrote; cbn [output];
        rewrite Hout; unfold block_start, wrote, sent; cbn [output];
        rewrite <- !app_assoc; reflexivity. }
    repeat apply conj.
    + reflexivity.
    + reflexivity.
    + rewrite Hout. exact Hblock.
    + exact Hfile.
    + apply length_repeat_string.
    + cbn [Nat.add] in Hlen. exact Hlen.
    + exact Hnum.
    + exact Hempty.
Qed.

(** A gene with exons and a report file without data rows: the block
    is the header, the underline and the blank line. *)
Lemma block_of_a_file_witness :
  fst (process_file service_two_exons
         (mkDirEntry "rx3.tsv" (Some [header_row]) None) w0) = Ok tt /\
  output (snd (process_file service_two_exons
                 (mkDirEntry "rx3.tsv" (Some [header_row]) None) w0)) =
  [("rx3" ++ nl)%string; ("===" ++ nl)%string; nl].
Proof.
  assert (Hok : fst (process_file service_two_exons
                       (mkDirEntry "rx3.tsv" (Some [header_row]) None) w0) = Ok tt)
    by (vm_compute; reflexivity).
  split; [exact Hok |].
  destruct (block_of_a_file service_two_exons
              (mkDirEntry "rx3.tsv" (Some [header_row]) None) w0 Hok)
    as (_ & _ & Hblock).
  assert (Hext : is_tsv (mkDirEntry "rx3.tsv" (Some [header_row]) None) = true)
    by (vm_compute; reflexivity).
  assert (Hfetch :
    decode (service_two_exons (List.length (requests w0))
              (gene_of (mkDirEntry "rx3.tsv" (Some [header_row]) None))) =
    Ok (Some [mkExon 1 100; mkExon 150 200])) by (vm_compute; reflexivity).
  destruct (Hblock Hext (mkExon 1 100) [mkExon 150 200] Hfetch)
    as (exon_threshold & rows & kept & _ & Hrows & _ & Hout & _ & _ & _ & Hnone).
  cbn [tsv_rows] in Hrows. injection Hrows as <-.
  rewrite Hout, (Hnone eq_refl). vm_compute. reflexivity.
Defined.
